(** * ELApi: the ctypes binding of the EyeLogic client library

    A shallow embedding of [pygaze/_eyetracker/eyelogic/ELApi.py].

    The Python module is a thin adapter over a closed native library.  The
    embedding keeps three things explicit:
    - the [ctypes] type descriptors the module declares (structures,
      callback types, the [argtypes]/[restype] of every entry point);
    - the mutable state the methods share: the attributes of the global
      [c_lib] object, and the state of the native library behind it;
    - Python's exceptions, as an error result.

    The native library itself is not part of the repository: it is a
    parameter of the development (Section [Adapter]). *)

From Stdlib Require Import ZArith List String Ascii Bool Lia Permutation.
From Stdlib Require Import Strings.Byte.
Import ListNotations.
Set Warnings "-register-all".
Local Open Scope string_scope.
Local Open Scope list_scope.
Local Open Scope Z_scope.

(** ** ctypes type descriptors *)

Module Ctypes.

(** The three [Structure] subclasses of the module. *)
Inductive StructName : Type :=
  | ELCPoint2d
  | ELCPoint3d
  | ELCGazeSample.

(** The [ctypes] types the module mentions.  [CFUNCTYPE res args] is the
    callback type with result [res] ([None] is Python's [None], a [void]
    result): ctypes caches these classes by signature, so two callback types
    with one signature are one class, as two equal terms are here. *)
Inductive ctype : Type :=
  | c_bool
  | c_ubyte
  | c_int
  | c_longlong
  | c_double
  | c_char_p
  | POINTER (t : ctype)
  | Structure (s : StructName)
  | CFUNCTYPE (res : option ctype) (args : list ctype).

(** Fixed-width aliases, as ctypes defines them where [int] has 32 bits. *)
Definition c_uint8 : ctype := c_ubyte.
Definition c_int32 : ctype := c_int.
Definition c_int64 : ctype := c_longlong.

Definition StructName_eqb (a b : StructName) : bool :=
  match a, b with
  | ELCPoint2d, ELCPoint2d | ELCPoint3d, ELCPoint3d
  | ELCGazeSample, ELCGazeSample => true
  | _, _ => false
  end.

Fixpoint ctype_eqb (a b : ctype) {struct a} : bool :=
  let fix all2 (l m : list ctype) {struct l} : bool :=
    match l, m with
    | [], [] => true
    | x :: l', y :: m' => ctype_eqb x y && all2 l' m'
    | _, _ => false
    end in
  match a, b with
  | c_bool, c_bool | c_ubyte, c_ubyte | c_int, c_int
  | c_longlong, c_longlong | c_double, c_double | c_char_p, c_char_p => true
  | POINTER t, POINTER u => ctype_eqb t u
  | Structure s, Structure s' => StructName_eqb s s'
  | CFUNCTYPE r l, CFUNCTYPE r' l' =>
      match r, r' with
      | None, None => true
      | Some t, Some u => ctype_eqb t u
      | _, _ => false
      end && all2 l l'
  | _, _ => false
  end.

(** How a scalar type is laid out: a two's-complement or unsigned integer
    of [bits] bits, or an IEEE-754 binary float of [bits] bits. *)
Inductive scalar : Type :=
  | SignedInt (bits : Z)
  | UnsignedInt (bits : Z)
  | Float (bits : Z)
  | Boolean.

Definition scalar_of (t : ctype) : option scalar :=
  match t with
  | c_bool => Some Boolean
  | c_ubyte => Some (UnsignedInt 8)
  | c_int => Some (SignedInt 32)
  | c_longlong => Some (SignedInt 64)
  | c_double => Some (Float 64)
  | _ => None
  end.

(** The [_fields_] of each structure, in declaration order. *)
Definition _fields_ (s : StructName) : list (string * ctype) :=
  match s with
  | ELCPoint2d => [("x", c_double); ("y", c_double)]
  | ELCPoint3d => [("x", c_double); ("y", c_double); ("z", c_double)]
  | ELCGazeSample =>
      [ ("timestampMicroSec", c_int64);
        ("index", c_int32);
        ("porRaw", Structure ELCPoint2d);
        ("porFiltered", Structure ELCPoint2d);
        ("porLeft", Structure ELCPoint2d);
        ("eyePositionLeft", Structure ELCPoint3d);
        ("pupilRadiusLeft", c_double);
        ("porRight", Structure ELCPoint2d);
        ("eyePositionRight", Structure ELCPoint3d);
        ("pupilRadiusRight", c_double) ]
  end.

(** Callback types. *)
Definition SampleCallback : ctype :=
  CFUNCTYPE None [POINTER (Structure ELCGazeSample)].
Definition ConnectionClosedCallback : ctype := CFUNCTYPE None [].
Definition DeviceConnectedCallback : ctype :=
  CFUNCTYPE None [c_int64; POINTER c_uint8; c_int32; POINTER c_uint8; c_int32].
Definition DeviceDisconnectedCallback : ctype := CFUNCTYPE None [].
Definition TrackingStoppedCallback : ctype := CFUNCTYPE None [].

End Ctypes.
Import Ctypes.

(** ** Machine integers *)

(** The value of the low [w] bits of [z] read as a two's-complement
    integer. *)
Definition wrap_signed (w : Z) (z : Z) : Z :=
  let m := z mod 2 ^ w in
  if m <? 2 ^ (w - 1) then m else m - 2 ^ w.

Definition byte_of_Z (z : Z) : byte :=
  match Byte.of_N (Z.to_N (z mod 256)) with
  | Some b => b
  | None => x00
  end.

(** ** Python values and exceptions *)

(** What crosses the native boundary. *)
Inductive cval : Type :=
  | CInt (z : Z)                 (* an integer register value *)
  | CNull                        (* a null pointer *)
  | CChars (bs : list byte)      (* char*, to a NUL-terminated copy of bs *)
  | CWChars (cps : list Z)       (* wchar_t* *)
  | CDoubleOfInt (z : Z)         (* a double converted from an integer *)
  | CFunPtr (callable : nat).    (* a thunk around a Python callable *)

(** The Python objects a caller can hand to the adapter.  A [str] is its
    list of code points; [PyCData t v] is an instance of the ctypes type
    [t] that holds [v]. *)
Inductive pyobj : Type :=
  | PyNone
  | PyBool (b : bool)
  | PyInt (z : Z)
  | PyStr (cps : list Z)
  | PyBytes (bs : list byte)
  | PyCData (t : ctype) (v : cval).

(** The exceptions that can leave the module.  [Exception] carries the
    message the source formats; the others carry what they complain about. *)
Inductive exn : Type :=
  | Exception (msg : string)
  | AttributeError (obj : pyobj) (attr : string)
  | UnicodeEncodeError (codepoint : Z)
  | ValueError (value : pyobj)        (* "<value> is not a valid <Enum>" *)
  | TypeError (msg : string)
  | NameError (name : string)
  | OSError
  | ArgumentError (position : nat).   (* ctypes.ArgumentError, 1-based *)

Inductive result (A : Type) : Type :=
  | Return (a : A)
  | Raise (e : exn).
Arguments Return {A} a.
Arguments Raise {A} e.

(** *** [str.encode('utf-8')] *)

Definition is_surrogate (cp : Z) : bool := (0xD800 <=? cp) && (cp <=? 0xDFFF).

Definition utf8_continuation (z : Z) : byte :=
  byte_of_Z (Z.lor 0x80 (Z.land z 0x3F)).

Definition utf8_of_codepoint (cp : Z) : list byte :=
  if cp <? 0x80 then [byte_of_Z cp]
  else if cp <? 0x800 then
    [byte_of_Z (Z.lor 0xC0 (Z.shiftr cp 6)); utf8_continuation cp]
  else if cp <? 0x10000 then
    [byte_of_Z (Z.lor 0xE0 (Z.shiftr cp 12));
     utf8_continuation (Z.shiftr cp 6); utf8_continuation cp]
  else
    [byte_of_Z (Z.lor 0xF0 (Z.shiftr cp 18));
     utf8_continuation (Z.shiftr cp 12);
     utf8_continuation (Z.shiftr cp 6); utf8_continuation cp].

(** Strict UTF-8: a lone surrogate cannot be encoded. *)
Fixpoint utf8_encode (cps : list Z) : result (list byte) :=
  match cps with
  | [] => Return []
  | cp :: rest =>
      if is_surrogate cp then Raise (UnicodeEncodeError cp)
      else match utf8_encode rest with
           | Return bs => Return (utf8_of_codepoint cp ++ bs)
           | Raise e => Raise e
           end
  end.

(** The strings [utf8_encode] accepts. *)
Definition encodable (cps : list Z) : bool :=
  forallb (fun cp => negb (is_surrogate cp)) cps.

(** [obj.encode('utf-8')]: only [str] has the method. *)
Definition encode_utf8 (obj : pyobj) : result (list byte) :=
  match obj with
  | PyStr cps => utf8_encode cps
  | _ => Raise (AttributeError obj "encode")
  end.

(** *** Truth and equality of Python values *)

Definition truth (v : pyobj) : bool :=
  match v with
  | PyNone => false
  | PyBool b => b
  | PyInt z => negb (z =? 0)
  | PyStr cps => match cps with [] => false | _ => true end
  | PyBytes bs => match bs with [] => false | _ => true end
  | PyCData _ x =>
      match x with
      | CInt z => negb (z =? 0)
      | CNull => false
      | _ => true
      end
  end.

(** [int(v)] for the values that are integers ([bool] is a subclass of
    [int]). *)
Definition as_int (v : pyobj) : option Z :=
  match v with
  | PyInt z => Some z
  | PyBool b => Some (Z.b2z b)
  | _ => None
  end.

(** ** Enumerations *)

(** [Enum] looks a value up among the members' values, with Python's
    equality: [cls(v)] is the member whose value equals [v], and a
    [ValueError] when there is none. *)
Definition enum_call {E : Type} (members : list E) (value : E -> Z)
    (v : pyobj) : result E :=
  match as_int v with
  | Some z =>
      match find (fun m => value m =? z) members with
      | Some m => Return m
      | None => Raise (ValueError v)
      end
  | None => Raise (ValueError v)
  end.

(** Return values of [connect]. *)
Module ReturnConnect.
Inductive t : Type :=
  | SUCCESS | NOT_INITED | ALREADY_CONNECTED | VERSION_MISMATCH | TIMEOUT.
Definition value (m : t) : Z :=
  match m with
  | SUCCESS => 0
  | NOT_INITED => 1
  | ALREADY_CONNECTED => 2
  | VERSION_MISMATCH => 3
  | TIMEOUT => 4
  end.
Definition members : list t :=
  [SUCCESS; NOT_INITED; ALREADY_CONNECTED; VERSION_MISMATCH; TIMEOUT].
Definition call : pyobj -> result t := enum_call members value.
End ReturnConnect.

(** Return values of [requestTracking]. *)
Module ReturnStart.
Inductive t : Type :=
  | SUCCESS | NOT_CONNECTED | DEVICE_MISSING | INVALID_FRAMERATE_MODE
  | ALREADY_RUNNING_DIFFERENT_FRAMERATE | FAILURE.
Definition value (m : t) : Z :=
  match m with
  | SUCCESS => 0
  | NOT_CONNECTED => 1
  | DEVICE_MISSING => 2
  | INVALID_FRAMERATE_MODE => 3
  | ALREADY_RUNNING_DIFFERENT_FRAMERATE => 4
  | FAILURE => 5
  end.
Definition members : list t :=
  [SUCCESS; NOT_CONNECTED; DEVICE_MISSING; INVALID_FRAMERATE_MODE;
   ALREADY_RUNNING_DIFFERENT_FRAMERATE; FAILURE].
Definition call : pyobj -> result t := enum_call members value.
End ReturnStart.

(** Return values of [calibrate]. *)
Module ReturnCalibrate.
Inductive t : Type :=
  | SUCCESS | NOT_CONNECTED | NOT_TRACKING | INVALID_CALIBRATION_MODE
  | ALREADY_CALIBRATING | FAILURE.
Definition value (m : t) : Z :=
  match m with
  | SUCCESS => 0
  | NOT_CONNECTED => 1
  | NOT_TRACKING => 2
  | INVALID_CALIBRATION_MODE => 3
  | ALREADY_CALIBRATING => 4
  | FAILURE => 5
  end.
Definition members : list t :=
  [SUCCESS; NOT_CONNECTED; NOT_TRACKING; INVALID_CALIBRATION_MODE;
   ALREADY_CALIBRATING; FAILURE].
Definition call : pyobj -> result t := enum_call members value.
End ReturnCalibrate.

(** ** Foreign functions *)

(** The entry points of the native library the module calls. *)
Inductive Entry : Type :=
  | elInitApi | elDestroyApi | elConnect | elDisconnect | elIsConnected
  | elRequestTracking | elUnrequestTracking | elCalibrate.

Definition Entry_eqb (a b : Entry) : bool :=
  match a, b with
  | elInitApi, elInitApi | elDestroyApi, elDestroyApi
  | elConnect, elConnect | elDisconnect, elDisconnect
  | elIsConnected, elIsConnected | elRequestTracking, elRequestTracking
  | elUnrequestTracking, elUnrequestTracking | elCalibrate, elCalibrate => true
  | _, _ => false
  end.

(** A foreign function object: the two attributes the module assigns.
    [argtypes = None] means no declared parameters; [restype = None] means
    the function returns nothing. *)
Record FuncPtr : Type := {
  argtypes : option (list ctype);
  restype : option ctype
}.

(** A function object as ctypes creates it on first attribute access. *)
Definition fresh_FuncPtr : FuncPtr :=
  {| argtypes := None; restype := Some c_int |}.

(** [t.from_param(v)]: the conversion of an argument declared with type
    [t]; [None] when ctypes refuses the value. *)
Definition from_param (t : ctype) (v : pyobj) : option cval :=
  match v with
  | PyCData t' x => if ctype_eqb t' t then Some x else None
  | _ =>
      match t with
      | c_bool => Some (CInt (Z.b2z (truth v)))
      | c_ubyte => option_map (fun z => CInt (z mod 2 ^ 8)) (as_int v)
      | c_int => option_map (fun z => CInt (wrap_signed 32 z)) (as_int v)
      | c_longlong => option_map (fun z => CInt (wrap_signed 64 z)) (as_int v)
      | c_double => option_map CDoubleOfInt (as_int v)
      | c_char_p =>
          match v with
          | PyNone => Some CNull
          | PyBytes bs => Some (CChars bs)
          | _ => None
          end
      | POINTER _ =>
          match v with
          | PyNone => Some CNull
          | _ => None
          end
      | Structure _ | CFUNCTYPE _ _ => None
      end
  end.

(** The conversion of an argument of a function without [argtypes]. *)
Definition default_param (v : pyobj) : option cval :=
  match v with
  | PyNone => Some CNull
  | PyBool b => Some (CInt (Z.b2z b))
  | PyInt z =>
      if (- 2 ^ 31 <=? z) && (z <? 2 ^ 32) then Some (CInt (wrap_signed 32 z))
      else None
  | PyStr cps => Some (CWChars cps)
  | PyBytes bs => Some (CChars bs)
  | PyCData _ x => Some x
  end.

(** Converts the arguments left to right; the first one refused raises
    [ArgumentError] with its position. *)
Fixpoint convert_each (conv : list (pyobj -> option cval)) (args : list pyobj)
    (position : nat) : result (list cval) :=
  match conv, args with
  | c :: conv', a :: args' =>
      match c a with
      | Some x =>
          match convert_each conv' args' (S position) with
          | Return xs => Return (x :: xs)
          | Raise e => Raise e
          end
      | None => Raise (ArgumentError position)
      end
  | _, _ => Return []
  end.

(** A [WinDLL] function uses the stdcall convention: with [argtypes] set,
    the number of arguments must be the number of declared parameters. *)
Definition convert_args (declared : option (list ctype)) (args : list pyobj)
    : result (list cval) :=
  match declared with
  | Some tys =>
      if Nat.eqb (List.length tys) (List.length args)
      then convert_each (map from_param tys) args 1%nat
      else Raise (TypeError "this function takes a fixed number of arguments")
  | None => convert_each (map (fun _ => default_param) args) args 1%nat
  end.

(** What Python receives for the register value [raw] of a function whose
    [restype] is [r].  The fundamental types come back as Python values, any
    other type as an instance of it. *)
Definition getresult (r : option ctype) (raw : Z) : pyobj :=
  match r with
  | None => PyNone
  | Some c_bool => PyBool (negb (raw mod 2 ^ 8 =? 0))
  | Some c_ubyte => PyInt (raw mod 2 ^ 8)
  | Some c_int => PyInt (wrap_signed 32 raw)
  | Some c_longlong => PyInt (wrap_signed 64 raw)
  | Some t => PyCData t (CInt raw)
  end.

(** ** Loading the module *)

(** What the module reads from its environment when it is imported. *)
Record Env : Type := {
  sys_maxsize : Z;
  __file__ : string;
  abspath : string -> string;              (* os.path.abspath *)
  dirname : string -> string;              (* os.path.dirname *)
  join : string -> string -> string;       (* os.path.join *)
  isfile : string -> bool;                 (* os.path.isfile *)
  WinDLL_kernel32 : bool;      (* WinDLL('kernel32', ...) gives a library *)
  wintypes_bound : bool;       (* the name wintypes is bound in the module *)
  LoadLibraryExW : string -> Z -> Z;       (* path, flags: the HMODULE *)
  in_dll : Z -> string -> option Z         (* an exported double, its bits *)
}.

(** What the import binds, besides the classes. *)
Record Module : Type := {
  c_libH : Z;
  ELInvalidValue : Z
}.

Definition libname (env : Env) : string :=
  if 2 ^ 32 <? sys_maxsize env then "ELCApi" else "ELCApi32".

Definition baseDir (env : Env) : string :=
  dirname env (abspath env (__file__ env)).

Definition libnameGlobal (env : Env) : string :=
  join env (baseDir env) (libname env ++ ".dll")%string.

(** The [str] with the characters of a literal. *)
Definition str (s : string) : pyobj :=
  PyStr (map (fun a => Z.of_N (N_of_ascii a)) (list_ascii_of_string s)).

(** [check_bool], the [errcheck] of [LoadLibraryExW]. *)
Definition check_bool (res : pyobj) (args : list pyobj)
    : result (list pyobj) :=
  if negb (truth res) then Raise OSError else Return args.

(** The body of the [try] statement.  [LoadLibraryExW] has an [HMODULE]
    result, which is [None] for a null handle; [check_bool] hands back the
    arguments it received, on which ctypes keeps the call's own result. *)
Definition load_library (env : Env) : result Z :=
  if WinDLL_kernel32 env then
    if wintypes_bound env then
      let raw := LoadLibraryExW env (libnameGlobal env) 0x00000008 in
      let res := if raw =? 0 then PyNone else PyInt raw in
      match check_bool res [str (libnameGlobal env); PyNone; PyInt 0x00000008]
      with
      | Return _ => Return raw
      | Raise e => Raise e
      end
    else Raise (NameError "wintypes")
  else Raise OSError.

(** The statements of the module up to the definition of the class. *)
Definition import_ELApi (env : Env) : result Module :=
  if negb (isfile env (libnameGlobal env)) then
    Raise (Exception
      ("WARNING: Could not find EyeLogic dll in its expected location: '"
         ++ libnameGlobal env ++ "'")%string)
  else
    match load_library env with
    | Raise _ =>
        Raise (Exception
          ("WARNING: Failed to load '" ++ libnameGlobal env ++ "'")%string)
    | Return h =>
        match in_dll env h "ELInvalidValue" with
        | Some bits => Return {| c_libH := h; ELInvalidValue := bits |}
        | None => Raise (ValueError (str "ELInvalidValue"))
        end
    end.

(** ** The adapter *)

Section Adapter.

(** The native library: its state, and what a call of an entry point with
    converted arguments does to that state and leaves in the result
    register.  The library is taken to export the eight entry points. *)
Variable N : Type.
Variable native : Entry -> list cval -> N -> Z * N.

(** The state the methods share: the function objects kept as attributes of
    the global [c_lib], the native library's state, and the calls made into
    it so far, oldest first. *)
Record World : Type := {
  c_lib : Entry -> FuncPtr;
  server : N;
  calls : list (Entry * list cval)
}.

(** The world an import that succeeds leaves: no attribute looked up yet,
    no call made. *)
Definition loaded (m : Module) (boot : N) : World :=
  {| c_lib := fun _ => fresh_FuncPtr; server := boot; calls := [] |}.

(** A computation reads and writes the world and returns or raises; what it
    wrote before raising stays written. *)
Definition M (A : Type) : Type := World -> result A * World.

Definition ret {A : Type} (a : A) : M A := fun w => (Return a, w).

Definition raise {A : Type} (e : exn) : M A := fun w => (Raise e, w).

Definition bind {A B : Type} (c : M A) (k : A -> M B) : M B :=
  fun w =>
    match c w with
    | (Return a, w') => k a w'
    | (Raise e, w') => (Raise e, w')
    end.

Definition lift {A : Type} (r : result A) : M A := fun w => (r, w).

Notation "x <- c ;; k" := (bind c (fun x => k))
  (at level 61, c at next level, right associativity).
Notation "c ;; k" := (bind c (fun _ => k))
  (at level 61, right associativity).

Definition update (f : Entry) (p : FuncPtr) (lib : Entry -> FuncPtr)
    : Entry -> FuncPtr :=
  fun g => if Entry_eqb g f then p else lib g.

(** [c_lib.f.argtypes = tys] *)
Definition set_argtypes (f : Entry) (tys : list ctype) : M unit :=
  fun w =>
    (Return tt,
     {| c_lib := update f {| argtypes := Some tys;
                             restype := restype (c_lib w f) |} (c_lib w);
        server := server w; calls := calls w |}).

(** [c_lib.f.restype = r] *)
Definition set_restype (f : Entry) (r : option ctype) : M unit :=
  fun w =>
    (Return tt,
     {| c_lib := update f {| argtypes := argtypes (c_lib w f);
                             restype := r |} (c_lib w);
        server := server w; calls := calls w |}).

(** [c_lib.f(args)]: converts the arguments as the function object is
    configured at this moment, calls into the library, and converts the
    result register. *)
Definition call (f : Entry) (args : list pyobj) : M pyobj :=
  fun w =>
    match convert_args (argtypes (c_lib w f)) args with
    | Raise e => (Raise e, w)
    | Return xs =>
        let (raw, n) := native f xs (server w) in
        (Return (getresult (restype (c_lib w f)) raw),
         {| c_lib := c_lib w; server := n;
            calls := calls w ++ [(f, xs)] |})
    end.

(** A client program: the import of the module, then, when the import
    succeeds, whatever the client does with the module in the world the
    import leaves.  A failed import leaves no world. *)
Definition run_client {A : Type} (env : Env) (boot : N)
    (client : Module -> M A) : result A * option World :=
  match import_ELApi env with
  | Raise e => (Raise e, None)
  | Return m =>
      let (r, w) := client m (loaded m boot) in (r, Some w)
  end.

(** An instance of [ELApi]; it has no attribute of its own. *)
Inductive ELApi : Type := ELApi_object.

(** The constructor. *)
Definition __init__ (self : ELApi) (clientName : pyobj)
    (sampleCallback connectionClosedCallback deviceConnectedCallback
     deviceDisconnectedCallback trackingStoppedCallback : pyobj) : M unit :=
  clientNameUtf8 <- lift (encode_utf8 clientName) ;;
  set_argtypes elInitApi
    [c_char_p; SampleCallback; ConnectionClosedCallback;
     DeviceConnectedCallback; DeviceDisconnectedCallback;
     TrackingStoppedCallback] ;;
  set_restype elInitApi (Some c_int) ;;
  call elInitApi
    [PyCData c_char_p (CChars clientNameUtf8);
     sampleCallback; connectionClosedCallback; deviceConnectedCallback;
     deviceDisconnectedCallback; trackingStoppedCallback] ;;
  ret tt.

(** The destructor. *)
Definition __del__ (self : ELApi) : M unit :=
  call elDestroyApi [] ;;
  ret tt.

Definition connect (self : ELApi) : M ReturnConnect.t :=
  set_argtypes elConnect [] ;;
  set_restype elConnect (Some c_int) ;;
  code <- call elConnect [] ;;
  lift (ReturnConnect.call code).

Definition disconnect (self : ELApi) : M pyobj :=
  set_argtypes elDisconnect [] ;;
  set_restype elDisconnect None ;;
  call elDisconnect [] ;;
  ret PyNone.

Definition isConnected (self : ELApi) : M pyobj :=
  set_argtypes elDisconnect [] ;;
  set_restype elDisconnect (Some c_bool) ;;
  call elIsConnected [].

Definition requestTracking (self : ELApi) (frameRateModeInd : pyobj)
    : M ReturnStart.t :=
  set_argtypes elRequestTracking [c_int] ;;
  set_restype elRequestTracking (Some c_int) ;;
  code <- call elRequestTracking [frameRateModeInd] ;;
  lift (ReturnStart.call code).

Definition unrequestTracking (self : ELApi) : M pyobj :=
  set_argtypes elUnrequestTracking [] ;;
  set_restype elUnrequestTracking None ;;
  call elUnrequestTracking [] ;;
  ret PyNone.

Definition calibrate (self : ELApi) (calibrationModeInd : pyobj)
    : M ReturnCalibrate.t :=
  set_argtypes elCalibrate [c_int] ;;
  set_restype elCalibrate (Some c_int) ;;
  code <- call elCalibrate [calibrationModeInd] ;;
  lift (ReturnCalibrate.call code).

(** The integer Python reads from the result register after a call of
    [elConnect], [elRequestTracking] and [elCalibrate] with [restype = c_int];
    the mode index reaches the library as a C [int]. *)
Definition connect_code (w : World) : Z :=
  wrap_signed 32 (fst (native elConnect [] (server w))).

Definition requestTracking_code (frameRateModeInd : Z) (w : World) : Z :=
  wrap_signed 32
    (fst (native elRequestTracking [CInt (wrap_signed 32 frameRateModeInd)]
            (server w))).

Definition calibrate_code (calibrationModeInd : Z) (w : World) : Z :=
  wrap_signed 32
    (fst (native elCalibrate [CInt (wrap_signed 32 calibrationModeInd)]
            (server w))).

(** The library [native] with another status reported by [elInitApi]: the
    same effect on the library's state, [status] in the result register. *)
Definition reporting (status : list cval -> N -> Z)
    : Entry -> list cval -> N -> Z * N :=
  fun f xs n =>
    match f with
    | elInitApi => (status xs n, snd (native f xs n))
    | _ => native f xs n
    end.

End Adapter.

Arguments World N : clear implicits.
Arguments c_lib {N} w f.
Arguments server {N} w.
Arguments calls {N} w.
Arguments loaded {N} m boot.
Arguments run_client {N A} env boot client.
Arguments __init__ {N} native self clientName sampleCallback
  connectionClosedCallback deviceConnectedCallback deviceDisconnectedCallback
  trackingStoppedCallback w.
Arguments __del__ {N} native self w.
Arguments connect {N} native self w.
Arguments disconnect {N} native self w.
Arguments isConnected {N} native self w.
Arguments requestTracking {N} native self frameRateModeInd w.
Arguments unrequestTracking {N} native self w.
Arguments calibrate {N} native self calibrationModeInd w.
Arguments connect_code {N} native w.
Arguments requestTracking_code {N} native frameRateModeInd w.
Arguments calibrate_code {N} native calibrationModeInd w.
Arguments reporting {N} native status f xs n.
Arguments wrap_signed : simpl never.

(** ** Concrete environments *)

(** A native library without state that leaves [raw] in the result register
    of every call. *)
Definition answering (raw : Z) : Entry -> list cval -> unit -> Z * unit :=
  fun _ _ s => (raw, s).

(** A 64-bit Windows installation with the library beside the module. *)
Definition sep : string := String (ascii_of_nat 92) "".

Definition install_dir : string :=
  ("C:" ++ sep ++ "pygaze" ++ sep ++ "eyelogic")%string.

Definition installed : Env :=
  {| sys_maxsize := 2 ^ 63 - 1;
     __file__ := (install_dir ++ sep ++ "ELApi.py")%string;
     abspath := fun p => p;
     dirname := fun _ => install_dir;
     join := fun a b => (a ++ sep ++ b)%string;
     isfile := String.eqb (install_dir ++ sep ++ "ELCApi.dll")%string;
     WinDLL_kernel32 := true;
     wintypes_bound := true;
     LoadLibraryExW := fun _ _ => 0x7FFA0000;
     in_dll := fun _ _ => Some 0x7FF8000000000000 |}.

(** The same installation with the library file removed. *)
Definition not_installed : Env :=
  {| sys_maxsize := sys_maxsize installed;
     __file__ := __file__ installed;
     abspath := abspath installed;
     dirname := dirname installed;
     join := join installed;
     isfile := fun _ => false;
     WinDLL_kernel32 := true;
     wintypes_bound := true;
     LoadLibraryExW := LoadLibraryExW installed;
     in_dll := in_dll installed |}.

(** The world after an import there, with a library without state. *)
Definition booted : World unit :=
  loaded {| c_libH := 0x7FFA0000; ELInvalidValue := 0x7FF8000000000000 |} tt.

(** Null function pointers of the five callback types. *)
Definition null_callback (t : ctype) : pyobj := PyCData t CNull.

(** ** Sessions *)

(** One use of the adapter by a client: the constructor, the destructor or
    a method, with its arguments. *)
Inductive Invocation : Type :=
  | Construct (clientName sampleCallback connectionClosedCallback
               deviceConnectedCallback deviceDisconnectedCallback
               trackingStoppedCallback : pyobj)
  | Destroy
  | Connect
  | Disconnect
  | IsConnected
  | RequestTracking (frameRateModeInd : pyobj)
  | UnrequestTracking
  | Calibrate (calibrationModeInd : pyobj).

Section Sessions.

Variable N : Type.
Variable native : Entry -> list cval -> N -> Z * N.

(** The world an invocation leaves, whether it returns or raises: a client
    that catches what is raised goes on in that world. *)
Definition after (c : Invocation) (w : World N) : World N :=
  match c with
  | Construct clientName cb1 cb2 cb3 cb4 cb5 =>
      snd (__init__ native ELApi_object clientName cb1 cb2 cb3 cb4 cb5 w)
  | Destroy => snd (__del__ native ELApi_object w)
  | Connect => snd (connect native ELApi_object w)
  | Disconnect => snd (disconnect native ELApi_object w)
  | IsConnected => snd (isConnected native ELApi_object w)
  | RequestTracking frameRateModeInd =>
      snd (requestTracking native ELApi_object frameRateModeInd w)
  | UnrequestTracking => snd (unrequestTracking native ELApi_object w)
  | Calibrate calibrationModeInd =>
      snd (calibrate native ELApi_object calibrationModeInd w)
  end.

(** The world after a sequence of invocations, first to last. *)
Definition after_all (cs : list Invocation) (w : World N) : World N :=
  fold_left (fun w' c => after c w') cs w.

End Sessions.

Arguments after {N} native c w.
Arguments after_all {N} native cs w.

(** The signatures the methods assign to each function object, besides the
    one ctypes creates it with. *)
Definition signatures (f : Entry) : list FuncPtr :=
  match f with
  | elInitApi =>
      [ fresh_FuncPtr;
        {| argtypes :=
             Some [c_char_p; SampleCallback; ConnectionClosedCallback;
                   DeviceConnectedCallback; DeviceDisconnectedCallback;
                   TrackingStoppedCallback];
           restype := Some c_int |} ]
  | elDestroyApi => [fresh_FuncPtr]
  | elConnect =>
      [fresh_FuncPtr; {| argtypes := Some []; restype := Some c_int |}]
  | elDisconnect =>
      [ fresh_FuncPtr; {| argtypes := Some []; restype := None |};
        {| argtypes := Some []; restype := Some c_bool |} ]
  | elIsConnected => [fresh_FuncPtr]
  | elRequestTracking =>
      [fresh_FuncPtr; {| argtypes := Some [c_int]; restype := Some c_int |}]
  | elUnrequestTracking =>
      [fresh_FuncPtr; {| argtypes := Some []; restype := None |}]
  | elCalibrate =>
      [fresh_FuncPtr; {| argtypes := Some [c_int]; restype := Some c_int |}]
  end.

(** A world whose function objects all have one of these signatures. *)
Definition configured {N : Type} (w : World N) : Prop :=
  forall f, In (c_lib w f) (signatures f).

(** ** Proof steps *)

(** Closes [value r = code] from the membership of [(code, r)] in a table
    of codes and results. *)
Ltac table_cases H :=
  cbn in H;
  repeat (destruct H as [H|H]; [injection H as <- <-; reflexivity|]);
  destruct H.

(** Moves the head of the left list to its place in the right one. *)
Ltac place_field :=
  first [ apply perm_skip
        | apply (Permutation_cons_app [_])
        | apply (Permutation_cons_app [_; _])
        | apply (Permutation_cons_app [_; _; _]) ]; cbn [app].

(** Unfolds a method down to the conversion of its arguments, and splits on
    that conversion and on what the library answers. *)
Ltac run_method :=
  unfold __init__, __del__, connect, disconnect, isConnected,
    requestTracking, unrequestTracking, calibrate, bind, set_argtypes,
    set_restype, call, lift, ret;
  cbn -[convert_args].

Ltac run_call :=
  match goal with
  | |- context [convert_args ?tys ?args] =>
      destruct (convert_args tys args); cbn
  end;
  try match goal with
      | |- context [let (_, _) := ?lib ?f ?xs (server ?w) in _] =>
          destruct (lib f xs (server w)); cbn
      end.

(** * Properties *)

(** ** Enumerations *)

Section EnumCall.

Context {E : Type} (members : list E) (value : E -> Z).

Lemma enum_call_sound (v : pyobj) (m : E) :
  enum_call members value v = Return m ->
  In m members /\ as_int v = Some (value m).
Proof.
  unfold enum_call.
  destruct (as_int v) as [z|]; [|discriminate].
  destruct (find _ members) as [m'|] eqn:Hfind; [|discriminate].
  intros [= <-].
  apply find_some in Hfind as [Hin Heq].
  apply Z.eqb_eq in Heq. now subst z.
Qed.

Lemma find_first_of_injective (l : list E) (m : E) :
  (forall a b, In a l -> In b l -> value a = value b -> a = b) ->
  In m l ->
  find (fun a => value a =? value m) l = Some m.
Proof.
  induction l as [|a l IH]; intros Hinj Hin; [contradiction|].
  cbn [find].
  destruct (Z.eqb_spec (value a) (value m)) as [Heq|Hne].
  - f_equal. apply Hinj; auto using in_eq.
  - destruct Hin as [->|Hin]; [congruence|].
    apply IH; auto.
    intros x y Hx Hy. apply Hinj; now right.
Qed.

Lemma enum_call_complete (v : pyobj) (m : E) :
  (forall a b, In a members -> In b members -> value a = value b -> a = b) ->
  In m members ->
  as_int v = Some (value m) ->
  enum_call members value v = Return m.
Proof.
  intros Hinj Hin Hv. unfold enum_call. rewrite Hv.
  now rewrite find_first_of_injective.
Qed.

Lemma enum_call_unknown (v : pyobj) :
  (forall m, In m members -> as_int v <> Some (value m)) ->
  enum_call members value v = Raise (ValueError v).
Proof.
  intros Hnone. unfold enum_call.
  destruct (as_int v) as [z|]; [|reflexivity].
  destruct (find _ members) as [m|] eqn:Hfind; [|reflexivity].
  apply find_some in Hfind as [Hin Heq].
  apply Z.eqb_eq in Heq. subst z.
  now destruct (Hnone m Hin).
Qed.

End EnumCall.

(** Each enumeration lists all its members, with distinct values. *)
Lemma ReturnConnect_members (m : ReturnConnect.t) :
  In m ReturnConnect.members /\ 0 <= ReturnConnect.value m <= 4.
Proof. destruct m; cbn; intuition lia. Qed.

Lemma ReturnConnect_injective (a b : ReturnConnect.t) :
  ReturnConnect.value a = ReturnConnect.value b -> a = b.
Proof. destruct a, b; cbn; intros H; (reflexivity || discriminate H). Qed.

Lemma ReturnStart_members (m : ReturnStart.t) :
  In m ReturnStart.members /\ 0 <= ReturnStart.value m <= 5.
Proof. destruct m; cbn; intuition lia. Qed.

Lemma ReturnStart_injective (a b : ReturnStart.t) :
  ReturnStart.value a = ReturnStart.value b -> a = b.
Proof. destruct a, b; cbn; intros H; (reflexivity || discriminate H). Qed.

Lemma ReturnCalibrate_members (m : ReturnCalibrate.t) :
  In m ReturnCalibrate.members /\ 0 <= ReturnCalibrate.value m <= 5.
Proof. destruct m; cbn; intuition lia. Qed.

Lemma ReturnCalibrate_injective (a b : ReturnCalibrate.t) :
  ReturnCalibrate.value a = ReturnCalibrate.value b -> a = b.
Proof. destruct a, b; cbn; intros H; (reflexivity || discriminate H). Qed.

(** [cls(code)] for an integer: the member with that value, if any. *)
Lemma ReturnConnect_call_iff (z : Z) (m : ReturnConnect.t) :
  ReturnConnect.call (PyInt z) = Return m <-> ReturnConnect.value m = z.
Proof.
  split.
  - intros H. apply enum_call_sound in H as [_ [= ->]]. reflexivity.
  - intros <-. apply enum_call_complete; [| apply ReturnConnect_members | easy].
    intros a b _ _. apply ReturnConnect_injective.
Qed.

Lemma ReturnStart_call_iff (z : Z) (m : ReturnStart.t) :
  ReturnStart.call (PyInt z) = Return m <-> ReturnStart.value m = z.
Proof.
  split.
  - intros H. apply enum_call_sound in H as [_ [= ->]]. reflexivity.
  - intros <-. apply enum_call_complete; [| apply ReturnStart_members | easy].
    intros a b _ _. apply ReturnStart_injective.
Qed.

Lemma ReturnCalibrate_call_iff (z : Z) (m : ReturnCalibrate.t) :
  ReturnCalibrate.call (PyInt z) = Return m <-> ReturnCalibrate.value m = z.
Proof.
  split.
  - intros H. apply enum_call_sound in H as [_ [= ->]]. reflexivity.
  - intros <-.
    apply enum_call_complete; [| apply ReturnCalibrate_members | easy].
    intros a b _ _. apply ReturnCalibrate_injective.
Qed.

Lemma ReturnConnect_call_unknown (z : Z) :
  ~ 0 <= z <= 4 -> ReturnConnect.call (PyInt z) = Raise (ValueError (PyInt z)).
Proof.
  intros Hz. apply enum_call_unknown. intros m _ [= ->].
  apply Hz, ReturnConnect_members.
Qed.

Lemma ReturnStart_call_unknown (z : Z) :
  ~ 0 <= z <= 5 -> ReturnStart.call (PyInt z) = Raise (ValueError (PyInt z)).
Proof.
  intros Hz. apply enum_call_unknown. intros m _ [= ->].
  apply Hz, ReturnStart_members.
Qed.

Lemma ReturnCalibrate_call_unknown (z : Z) :
  ~ 0 <= z <= 5 ->
  ReturnCalibrate.call (PyInt z) = Raise (ValueError (PyInt z)).
Proof.
  intros Hz. apply enum_call_unknown. intros m _ [= ->].
  apply Hz, ReturnCalibrate_members.
Qed.

(** ** Results of the blocking calls *)

Section Results.

Variable N : Type.
Variable native : Entry -> list cval -> N -> Z * N.

Lemma connect_result (self : ELApi) (w : World N) :
  fst (connect native self w)
  = ReturnConnect.call (PyInt (connect_code native w)).
Proof.
  unfold connect, connect_code, bind, set_argtypes, set_restype, call, lift.
  cbn. destruct (native elConnect [] (server w)). reflexivity.
Qed.

Lemma requestTracking_result (self : ELApi) (i : Z) (w : World N) :
  fst (requestTracking native self (PyInt i) w)
  = ReturnStart.call (PyInt (requestTracking_code native i w)).
Proof.
  unfold requestTracking, requestTracking_code, bind, set_argtypes,
    set_restype, call, lift.
  cbn. destruct (native elRequestTracking _ (server w)). reflexivity.
Qed.

Lemma calibrate_result (self : ELApi) (i : Z) (w : World N) :
  fst (calibrate native self (PyInt i) w)
  = ReturnCalibrate.call (PyInt (calibrate_code native i w)).
Proof.
  unfold calibrate, calibrate_code, bind, set_argtypes, set_restype, call,
    lift.
  cbn. destruct (native elCalibrate _ (server w)). reflexivity.
Qed.

Lemma ReturnConnect_of_code (z : Z) :
  0 <= z <= 4 -> exists m, ReturnConnect.value m = z.
Proof.
  intros Hz.
  assert (z = 0 \/ z = 1 \/ z = 2 \/ z = 3 \/ z = 4) as Hc by lia.
  destruct Hc as [->|[->|[->|[->| ->]]]];
    [ exists ReturnConnect.SUCCESS | exists ReturnConnect.NOT_INITED
    | exists ReturnConnect.ALREADY_CONNECTED
    | exists ReturnConnect.VERSION_MISMATCH | exists ReturnConnect.TIMEOUT ];
    reflexivity.
Qed.

Lemma ReturnStart_of_code (z : Z) :
  0 <= z <= 5 -> exists m, ReturnStart.value m = z.
Proof.
  intros Hz.
  assert (z = 0 \/ z = 1 \/ z = 2 \/ z = 3 \/ z = 4 \/ z = 5) as Hc by lia.
  destruct Hc as [->|[->|[->|[->|[->| ->]]]]];
    [ exists ReturnStart.SUCCESS | exists ReturnStart.NOT_CONNECTED
    | exists ReturnStart.DEVICE_MISSING
    | exists ReturnStart.INVALID_FRAMERATE_MODE
    | exists ReturnStart.ALREADY_RUNNING_DIFFERENT_FRAMERATE
    | exists ReturnStart.FAILURE ];
    reflexivity.
Qed.

Lemma ReturnCalibrate_of_code (z : Z) :
  0 <= z <= 5 -> exists m, ReturnCalibrate.value m = z.
Proof.
  intros Hz.
  assert (z = 0 \/ z = 1 \/ z = 2 \/ z = 3 \/ z = 4 \/ z = 5) as Hc by lia.
  destruct Hc as [->|[->|[->|[->|[->| ->]]]]];
    [ exists ReturnCalibrate.SUCCESS | exists ReturnCalibrate.NOT_CONNECTED
    | exists ReturnCalibrate.NOT_TRACKING
    | exists ReturnCalibrate.INVALID_CALIBRATION_MODE
    | exists ReturnCalibrate.ALREADY_CALIBRATING
    | exists ReturnCalibrate.FAILURE ];
    reflexivity.
Qed.

(** C4: [connect] returns a result exactly when the native code is one of
    0, 1, 2, 3, 4, and the result is then SUCCESS, NOT_INITED,
    ALREADY_CONNECTED, VERSION_MISMATCH, TIMEOUT respectively; no other
    result is returned, and each of the five codes does give a result. *)
Theorem connect_returns_one_of_five (self : ELApi) (w : World N) :
  (forall r : ReturnConnect.t,
     fst (connect native self w) = Return r <->
     In (connect_code native w, r)
       [ (0, ReturnConnect.SUCCESS); (1, ReturnConnect.NOT_INITED);
         (2, ReturnConnect.ALREADY_CONNECTED);
         (3, ReturnConnect.VERSION_MISMATCH); (4, ReturnConnect.TIMEOUT) ])
  /\ (0 <= connect_code native w <= 4 ->
      exists r, fst (connect native self w) = Return r).
Proof.
  rewrite connect_result. split.
  - intros r. rewrite ReturnConnect_call_iff. split.
    + intros <-. destruct r; cbn; auto 10.
    + intros H. table_cases H.
  - intros Hz. destruct (ReturnConnect_of_code _ Hz) as [m Hm].
    exists m. now apply ReturnConnect_call_iff.
Qed.

(** C5: for every integer mode index, [requestTracking] returns a result
    exactly when the native code is one of 0..5, and the result is then
    SUCCESS, NOT_CONNECTED, DEVICE_MISSING, INVALID_FRAMERATE_MODE,
    ALREADY_RUNNING_DIFFERENT_FRAMERATE, FAILURE respectively; each of the
    six codes does give a result. *)
Theorem requestTracking_returns_one_of_six (self : ELApi)
    (frameRateModeInd : Z) (w : World N) :
  (forall r : ReturnStart.t,
     fst (requestTracking native self (PyInt frameRateModeInd) w) = Return r
     <->
     In (requestTracking_code native frameRateModeInd w, r)
       [ (0, ReturnStart.SUCCESS); (1, ReturnStart.NOT_CONNECTED);
         (2, ReturnStart.DEVICE_MISSING);
         (3, ReturnStart.INVALID_FRAMERATE_MODE);
         (4, ReturnStart.ALREADY_RUNNING_DIFFERENT_FRAMERATE);
         (5, ReturnStart.FAILURE) ])
  /\ (0 <= requestTracking_code native frameRateModeInd w <= 5 ->
      exists r,
        fst (requestTracking native self (PyInt frameRateModeInd) w)
        = Return r).
Proof.
  rewrite requestTracking_result. split.
  - intros r. rewrite ReturnStart_call_iff. split.
    + intros <-. destruct r; cbn; auto 10.
    + intros H. table_cases H.
  - intros Hz. destruct (ReturnStart_of_code _ Hz) as [m Hm].
    exists m. now apply ReturnStart_call_iff.
Qed.

(** C6: for every integer mode index, [calibrate] returns a result exactly
    when the native code is one of 0..5, and the result is then SUCCESS,
    NOT_CONNECTED, NOT_TRACKING, INVALID_CALIBRATION_MODE,
    ALREADY_CALIBRATING, FAILURE respectively; each of the six codes does
    give a result. *)
Theorem calibrate_returns_one_of_six (self : ELApi)
    (calibrationModeInd : Z) (w : World N) :
  (forall r : ReturnCalibrate.t,
     fst (calibrate native self (PyInt calibrationModeInd) w) = Return r <->
     In (calibrate_code native calibrationModeInd w, r)
       [ (0, ReturnCalibrate.SUCCESS); (1, ReturnCalibrate.NOT_CONNECTED);
         (2, ReturnCalibrate.NOT_TRACKING);
         (3, ReturnCalibrate.INVALID_CALIBRATION_MODE);
         (4, ReturnCalibrate.ALREADY_CALIBRATING);
         (5, ReturnCalibrate.FAILURE) ])
  /\ (0 <= calibrate_code native calibrationModeInd w <= 5 ->
      exists r,
        fst (calibrate native self (PyInt calibrationModeInd) w) = Return r).
Proof.
  rewrite calibrate_result. split.
  - intros r. rewrite ReturnCalibrate_call_iff. split.
    + intros <-. destruct r; cbn; auto 10.
    + intros H. table_cases H.
  - intros Hz. destruct (ReturnCalibrate_of_code _ Hz) as [m Hm].
    exists m. now apply ReturnCalibrate_call_iff.
Qed.

(** C1, as the code has it: for [connect], [requestTracking] and [calibrate]
    (with any integer mode index), a native code in the documented set (0..4
    for [connect], 0..5 for the other two) is returned as the result with that
    value and nothing is raised; a native code outside the set is not
    returned: the call raises [ValueError] with that code. *)
Theorem result_code_or_ValueError (self : ELApi) (modeInd : Z)
    (w : World N) :
  ((0 <= connect_code native w <= 4 ->
      exists r, fst (connect native self w) = Return r
                /\ ReturnConnect.value r = connect_code native w)
   /\ (~ 0 <= connect_code native w <= 4 ->
       fst (connect native self w)
       = Raise (ValueError (PyInt (connect_code native w)))))
  /\
  ((0 <= requestTracking_code native modeInd w <= 5 ->
      exists r, fst (requestTracking native self (PyInt modeInd) w) = Return r
                /\ ReturnStart.value r
                   = requestTracking_code native modeInd w)
   /\ (~ 0 <= requestTracking_code native modeInd w <= 5 ->
       fst (requestTracking native self (PyInt modeInd) w)
       = Raise (ValueError (PyInt (requestTracking_code native modeInd w)))))
  /\
  ((0 <= calibrate_code native modeInd w <= 5 ->
      exists r, fst (calibrate native self (PyInt modeInd) w) = Return r
                /\ ReturnCalibrate.value r = calibrate_code native modeInd w)
   /\ (~ 0 <= calibrate_code native modeInd w <= 5 ->
       fst (calibrate native self (PyInt modeInd) w)
       = Raise (ValueError (PyInt (calibrate_code native modeInd w))))).
Proof.
  rewrite connect_result, requestTracking_result, calibrate_result.
  repeat split.
  - intros Hz. destruct (ReturnConnect_of_code _ Hz) as [m Hm].
    exists m. split; [now apply ReturnConnect_call_iff | exact Hm].
  - apply ReturnConnect_call_unknown.
  - intros Hz. destruct (ReturnStart_of_code _ Hz) as [m Hm].
    exists m. split; [now apply ReturnStart_call_iff | exact Hm].
  - apply ReturnStart_call_unknown.
  - intros Hz. destruct (ReturnCalibrate_of_code _ Hz) as [m Hm].
    exists m. split; [now apply ReturnCalibrate_call_iff | exact Hm].
  - apply ReturnCalibrate_call_unknown.
Qed.

End Results.

(** ** Calls that return nothing, and the connection query *)

Section Session.

Variable N : Type.
Variable native : Entry -> list cval -> N -> Z * N.

(** C7: [unrequestTracking] always returns [None], raises nothing, and makes
    exactly one call into the library, [elUnrequestTracking()], whose result
    register it does not read; this in every world, whether
    [requestTracking] was called before or not. *)
Theorem unrequestTracking_fire_and_forget (self : ELApi) (w : World N) :
  fst (unrequestTracking native self w) = Return PyNone
  /\ calls (snd (unrequestTracking native self w))
     = calls w ++ [(elUnrequestTracking, [])]
  /\ server (snd (unrequestTracking native self w))
     = snd (native elUnrequestTracking [] (server w)).
Proof.
  unfold unrequestTracking, bind, set_argtypes, set_restype, call, ret.
  cbn. destruct (native elUnrequestTracking [] (server w)). cbn. auto.
Qed.

(** What [isConnected] does to the function objects, in every world: it
    configures [elDisconnect], and leaves [elIsConnected], the function it
    calls, as it was. *)
Lemma isConnected_configures_elDisconnect (self : ELApi) (w : World N) :
  c_lib (snd (isConnected native self w)) elDisconnect
  = {| argtypes := Some []; restype := Some c_bool |}
  /\ c_lib (snd (isConnected native self w)) elIsConnected
     = c_lib w elIsConnected.
Proof.
  unfold isConnected, bind, set_argtypes, set_restype, call.
  cbn -[convert_args].
  destruct (convert_args _ _) as [xs|e]; cbn; [|auto].
  destruct (native elIsConnected xs (server w)). cbn. auto.
Qed.

(** ** The constructor *)

Lemma utf8_encode_surrogate (cps : list Z) :
  encodable cps = false ->
  exists cp, In cp cps /\ is_surrogate cp = true
             /\ utf8_encode cps = Raise (UnicodeEncodeError cp).
Proof.
  induction cps as [|cp cps IH]; cbn; [discriminate|].
  destruct (is_surrogate cp) eqn:Hcp; cbn.
  - intros _. exists cp. auto.
  - intros H. destruct (IH H) as (cp' & Hin & Hs & ->). exists cp'. auto.
Qed.

Lemma utf8_encode_encodable (cps : list Z) :
  (exists bs, utf8_encode cps = Return bs) <-> encodable cps = true.
Proof.
  induction cps as [|cp cps IH]; cbn.
  - split; eauto.
  - destruct (is_surrogate cp); cbn.
    + split; [intros [bs [=]] | discriminate].
    + rewrite <- IH. destruct (utf8_encode cps) as [bs|e].
      * split; eauto.
      * split; intros [bs [=]].
Qed.

(** C9: the status [elInitApi] reports is discarded.  For every
    invocation the constructor does the same, result and world, whatever
    status the library reports; it returns normally whenever it has called
    [elInitApi], and when it raises it has not called the library.  For a
    client name that can be encoded and five callback objects it does call
    [elInitApi] and returns normally, whatever the status: a client that
    imports the module and constructs the object sees the import raise, with
    no world and no instance, or the constructor return normally. *)
Theorem init_status_discarded (status : list cval -> N -> Z) (self : ELApi)
    (clientName cb1 cb2 cb3 cb4 cb5 : pyobj) (w : World N)
    (env : Env) (boot : N) :
  __init__ (reporting native status) self clientName cb1 cb2 cb3 cb4 cb5 w
  = __init__ native self clientName cb1 cb2 cb3 cb4 cb5 w
  /\
  ((exists xs,
      fst (__init__ native self clientName cb1 cb2 cb3 cb4 cb5 w) = Return tt
      /\ calls (snd (__init__ native self clientName cb1 cb2 cb3 cb4 cb5 w))
         = calls w ++ [(elInitApi, xs)])
   \/
   (exists e,
      fst (__init__ native self clientName cb1 cb2 cb3 cb4 cb5 w) = Raise e
      /\ calls (snd (__init__ native self clientName cb1 cb2 cb3 cb4 cb5 w))
         = calls w
      /\ server (snd (__init__ native self clientName cb1 cb2 cb3 cb4 cb5 w))
         = server w))
  /\
  (forall cps v1 v2 v3 v4 v5,
     encodable cps = true ->
     let construct :=
       __init__ (reporting native status) self (PyStr cps)
         (PyCData SampleCallback v1)
         (PyCData ConnectionClosedCallback v2)
         (PyCData DeviceConnectedCallback v3)
         (PyCData DeviceDisconnectedCallback v4)
         (PyCData TrackingStoppedCallback v5) in
     (exists xs,
        fst (construct w) = Return tt
        /\ calls (snd (construct w)) = calls w ++ [(elInitApi, xs)])
     /\
     ((exists e,
         import_ELApi env = Raise e
         /\ run_client env boot (fun _ => construct) = (Raise e, None))
      \/
      (exists m w',
         import_ELApi env = Return m
         /\ run_client env boot (fun _ => construct) = (Return tt, Some w')))).
Proof.
  split; [|split].
  - unfold __init__, bind, set_argtypes, set_restype, call, lift, ret.
    destruct (encode_utf8 clientName) as [bs|e]; [|reflexivity].
    cbn -[convert_args].
    destruct (convert_args _ _) as [xs|e]; [|reflexivity].
    cbn. now destruct (native elInitApi xs (server w)).
  - unfold __init__, bind, set_argtypes, set_restype, call, lift, ret.
    destruct (encode_utf8 clientName) as [bs|e];
      [|right; exists e; cbn; auto].
    cbn -[convert_args].
    destruct (convert_args _ _) as [xs|e]; [|right; exists e; cbn; auto].
    cbn. destruct (native elInitApi xs (server w)) as [raw n].
    cbn. left. exists xs. auto.
  - intros cps v1 v2 v3 v4 v5 Hcps construct.
    apply utf8_encode_encodable in Hcps as [bs Hbs].
    assert (forall w0, exists xs,
              fst (construct w0) = Return tt
              /\ calls (snd (construct w0)) = calls w0 ++ [(elInitApi, xs)])
      as Hreturns.
    { intros w0. unfold construct, __init__, bind, set_argtypes,
        set_restype, call, lift, ret.
      cbn. rewrite Hbs. cbn. eexists. split; reflexivity. }
    split; [apply Hreturns|].
    unfold run_client. destruct (import_ELApi env) as [m|e].
    + right. destruct (Hreturns (loaded m boot)) as (xs & Hfst & _).
      destruct (construct (loaded m boot)) as [r w'].
      cbn in Hfst. subst r. eauto.
    + left. eauto.
Qed.

(** C10: the constructor encodes [clientName] before anything else.  A
    [clientName] that is not a [str] ([None] among them) raises
    [AttributeError] and leaves the world as it was; the constructor returns
    normally only for a [str] that UTF-8 can encode, a [str] with a lone
    surrogate raising [UnicodeEncodeError]; and with the five callbacks null
    it returns normally for every [str] that can be encoded, and still raises
    for [None]. *)
Theorem init_requires_encodable_str (self : ELApi)
    (clientName cb1 cb2 cb3 cb4 cb5 : pyobj) (w : World N) :
  ((forall cps, clientName <> PyStr cps) ->
     __init__ native self clientName cb1 cb2 cb3 cb4 cb5 w
     = (Raise (AttributeError clientName "encode"), w))
  /\
  (fst (__init__ native self clientName cb1 cb2 cb3 cb4 cb5 w) = Return tt ->
     exists cps, clientName = PyStr cps /\ encodable cps = true)
  /\
  (forall cps, clientName = PyStr cps -> encodable cps = false ->
     exists cp,
       is_surrogate cp = true
       /\ __init__ native self clientName cb1 cb2 cb3 cb4 cb5 w
          = (Raise (UnicodeEncodeError cp), w))
  /\
  (forall cps, encodable cps = true ->
     fst (__init__ native self (PyStr cps)
            (null_callback SampleCallback)
            (null_callback ConnectionClosedCallback)
            (null_callback DeviceConnectedCallback)
            (null_callback DeviceDisconnectedCallback)
            (null_callback TrackingStoppedCallback) w) = Return tt)
  /\
  __init__ native self PyNone
    (null_callback SampleCallback)
    (null_callback ConnectionClosedCallback)
    (null_callback DeviceConnectedCallback)
    (null_callback DeviceDisconnectedCallback)
    (null_callback TrackingStoppedCallback) w
  = (Raise (AttributeError PyNone "encode"), w).
Proof.
  repeat split.
  - intros Hname. unfold __init__, bind, lift.
    destruct clientName; try reflexivity. now destruct (Hname cps).
  - unfold __init__, bind, lift.
    destruct clientName; cbn; try discriminate.
    intros H. exists cps. split; [reflexivity|].
    apply utf8_encode_encodable.
    destruct (utf8_encode cps) as [bs|e]; [eauto | discriminate H].
  - intros cps -> Hcps.
    destruct (utf8_encode_surrogate cps Hcps) as (cp & _ & Hs & Hraise).
    exists cp. split; [exact Hs|].
    unfold __init__, bind, lift. cbn. now rewrite Hraise.
  - intros cps Hcps. apply utf8_encode_encodable in Hcps as [bs Hbs].
    unfold __init__, bind, set_argtypes, set_restype, call, lift, ret.
    cbn. rewrite Hbs. cbn.
    destruct (native elInitApi _ (server w)). reflexivity.
Qed.

End Session.

(** ** The gaze sample *)

(** C8: the sample callback receives a pointer to an [ELCGazeSample], whose
    fields are exactly a 64-bit signed timestamp, a 32-bit signed index, the
    four [ELCPoint2d] points of regard, the two [ELCPoint3d] eye positions
    and the two 64-bit float pupil radii; [ELCPoint2d] is two and
    [ELCPoint3d] three 64-bit floats. *)
Theorem gaze_sample_layout :
  SampleCallback = CFUNCTYPE None [POINTER (Structure ELCGazeSample)]
  /\ Permutation (_fields_ ELCGazeSample)
       [ ("timestampMicroSec", c_int64); ("index", c_int32);
         ("porRaw", Structure ELCPoint2d);
         ("porFiltered", Structure ELCPoint2d);
         ("porLeft", Structure ELCPoint2d);
         ("porRight", Structure ELCPoint2d);
         ("eyePositionLeft", Structure ELCPoint3d);
         ("eyePositionRight", Structure ELCPoint3d);
         ("pupilRadiusLeft", c_double); ("pupilRadiusRight", c_double) ]
  /\ scalar_of c_int64 = Some (SignedInt 64)
  /\ scalar_of c_int32 = Some (SignedInt 32)
  /\ scalar_of c_double = Some (Float 64)
  /\ _fields_ ELCPoint2d = [("x", c_double); ("y", c_double)]
  /\ _fields_ ELCPoint3d = [("x", c_double); ("y", c_double); ("z", c_double)].
Proof.
  repeat split. cbn [_fields_].
  repeat place_field. apply perm_nil.
Qed.

(** ** Import *)

(** C3, as the code has it: when the library file is not at
    [join(dirname(abspath(__file__)), libname + ".dll")], or the [try] block
    that loads it raises, the import raises [Exception]; whatever the client
    goes on to do is not run and no world (no session, no call into the
    library) exists. *)
Theorem import_failure_is_fatal (env : Env) :
  isfile env
    (join env (dirname env (abspath env (__file__ env)))
       (libname env ++ ".dll")%string) = false
  \/ (exists e, load_library env = Raise e) ->
  exists msg,
    import_ELApi env = Raise (Exception msg)
    /\ forall (N A : Type) (boot : N) (client : Module -> M N A),
         run_client env boot client = (Raise (Exception msg), None).
Proof.
  intros Hfail.
  assert (exists msg, import_ELApi env = Raise (Exception msg)) as [msg Hmsg].
  { unfold import_ELApi, libnameGlobal, baseDir.
    destruct (isfile env _); cbn; [|eauto].
    destruct Hfail as [[=]|[e ->]]. eauto. }
  exists msg. split; [exact Hmsg|].
  intros N A boot client. unfold run_client. now rewrite Hmsg.
Qed.

(** * Concrete runs *)

(** C1 is not what the code does: with the library answering 7 to
    [elConnect], [connect] raises. *)
Lemma connect_raises_on_unknown_code :
  fst (connect (answering 7) ELApi_object booted)
  = Raise (ValueError (PyInt 7)).
Proof. reflexivity. Qed.

Lemma result_code_or_ValueError_witness :
  (exists r, fst (connect (answering 2) ELApi_object booted) = Return r
             /\ ReturnConnect.value r = 2)
  /\ fst (calibrate (answering (-1)) ELApi_object (PyInt 0) booted)
     = Raise (ValueError (PyInt (-1))).
Proof.
  split.
  - apply (proj1 (proj1
      (result_code_or_ValueError unit (answering 2) ELApi_object 0 booted))).
    vm_compute. split; discriminate.
  - apply (proj2 (proj2 (proj2
      (result_code_or_ValueError unit (answering (-1)) ELApi_object 0
         booted)))).
    vm_compute. intros [H _]. now apply H.
Defined.

Lemma connect_returns_one_of_five_witness :
  fst (connect (answering 3) ELApi_object booted)
  = Return ReturnConnect.VERSION_MISMATCH
  /\ exists r, fst (connect (answering 4) ELApi_object booted) = Return r.
Proof.
  split.
  - apply (proj1 (connect_returns_one_of_five unit (answering 3) ELApi_object
                    booted)).
    vm_compute. do 3 right. left. reflexivity.
  - apply (proj2 (connect_returns_one_of_five unit (answering 4) ELApi_object
                    booted)).
    vm_compute. split; discriminate.
Defined.

Lemma requestTracking_returns_one_of_six_witness :
  fst (requestTracking (answering 4) ELApi_object (PyInt 1) booted)
  = Return ReturnStart.ALREADY_RUNNING_DIFFERENT_FRAMERATE
  /\ exists r,
       fst (requestTracking (answering 5) ELApi_object (PyInt (2 ^ 40))
              booted) = Return r.
Proof.
  split.
  - apply (proj1 (requestTracking_returns_one_of_six unit (answering 4)
                    ELApi_object 1 booted)).
    vm_compute. do 4 right. left. reflexivity.
  - apply (proj2 (requestTracking_returns_one_of_six unit (answering 5)
                    ELApi_object (2 ^ 40) booted)).
    vm_compute. split; discriminate.
Defined.

Lemma calibrate_returns_one_of_six_witness :
  fst (calibrate (answering 2) ELApi_object (PyInt 0) booted)
  = Return ReturnCalibrate.NOT_TRACKING
  /\ exists r,
       fst (calibrate (answering 0) ELApi_object (PyInt (-1)) booted)
       = Return r.
Proof.
  split.
  - apply (proj1 (calibrate_returns_one_of_six unit (answering 2)
                    ELApi_object 0 booted)).
    vm_compute. do 2 right. left. reflexivity.
  - apply (proj2 (calibrate_returns_one_of_six unit (answering 0)
                    ELApi_object (-1) booted)).
    vm_compute. split; discriminate.
Defined.

(** C2 on a concrete run: after [disconnect()], [elDisconnect] is declared
    to return nothing; [isConnected()] then declares it to return a
    [c_bool], so the world is not the one it started in; [elIsConnected] is
    left as ctypes created it, and its answer comes back as the [int] 1,
    not as [True]. *)
Theorem isConnected_after_disconnect :
  let w := snd (disconnect (answering 1) ELApi_object booted) in
  let r := isConnected (answering 1) ELApi_object w in
  c_lib w elDisconnect = {| argtypes := Some []; restype := None |}
  /\ c_lib (snd r) elDisconnect
     = {| argtypes := Some []; restype := Some c_bool |}
  /\ snd r <> w
  /\ c_lib (snd r) elIsConnected = fresh_FuncPtr
  /\ fst r = Return (PyInt 1).
Proof.
  cbv zeta. repeat split.
  intros H.
  apply (f_equal (fun x => restype (c_lib x elDisconnect))) in H.
  discriminate H.
Qed.

Lemma init_requires_encodable_str_witness :
  __init__ (answering 0) ELApi_object (PyBytes [x50; x79]) PyNone PyNone
    PyNone PyNone PyNone booted
  = (Raise (AttributeError (PyBytes [x50; x79]) "encode"), booted)
  /\ fst (__init__ (answering 0) ELApi_object (str "PyGaze")
            (null_callback SampleCallback)
            (null_callback ConnectionClosedCallback)
            (null_callback DeviceConnectedCallback)
            (null_callback DeviceDisconnectedCallback)
            (null_callback TrackingStoppedCallback) booted) = Return tt.
Proof.
  split.
  - apply (proj1 (init_requires_encodable_str unit (answering 0) ELApi_object
                    (PyBytes [x50; x79]) PyNone PyNone PyNone PyNone PyNone
                    booted)).
    intros cps. discriminate.
  - apply (proj1 (proj2 (proj2 (proj2
      (init_requires_encodable_str unit (answering 0) ELApi_object
         PyNone PyNone PyNone PyNone PyNone PyNone booted))))).
    reflexivity.
Defined.

Lemma import_failure_is_fatal_witness :
  exists msg,
    import_ELApi not_installed = Raise (Exception msg)
    /\ forall (N A : Type) (boot : N) (client : Module -> M N A),
         run_client not_installed boot client = (Raise (Exception msg), None).
Proof.
  apply import_failure_is_fatal. left. reflexivity.
Defined.

(** C3 is not what the code does where it says that nothing else raises:
    here the library is found and loaded, and [connect] raises on a native
    code that [ReturnConnect] does not list. *)
Lemma connect_raises_after_import :
  isfile installed (libnameGlobal installed) = true
  /\ load_library installed = Return 0x7FFA0000
  /\ (exists m, import_ELApi installed = Return m)
  /\ exists w,
       run_client installed tt
         (fun _ => connect (answering 7) ELApi_object)
       = (Raise (ValueError (PyInt 7)), Some w).
Proof.
  repeat split.
  - eexists. reflexivity.
  - eexists. reflexivity.
Qed.

Lemma init_status_discarded_witness :
  fst (__init__ (reporting (answering 0) (fun _ _ => -1)) ELApi_object
         (PyStr [0x50; 0x79])
         (PyCData SampleCallback (CFunPtr 1))
         (PyCData ConnectionClosedCallback CNull)
         (PyCData DeviceConnectedCallback CNull)
         (PyCData DeviceDisconnectedCallback CNull)
         (PyCData TrackingStoppedCallback CNull) booted) = Return tt
  /\ run_client installed tt
       (fun _ =>
          __init__ (reporting (answering 0) (fun _ _ => -1)) ELApi_object
            (PyStr [0x50; 0x79])
            (PyCData SampleCallback (CFunPtr 1))
            (PyCData ConnectionClosedCallback CNull)
            (PyCData DeviceConnectedCallback CNull)
            (PyCData DeviceDisconnectedCallback CNull)
            (PyCData TrackingStoppedCallback CNull))
     = (Return tt,
        Some (snd (__init__ (answering 0) ELApi_object (PyStr [0x50; 0x79])
                     (PyCData SampleCallback (CFunPtr 1))
                     (PyCData ConnectionClosedCallback CNull)
                     (PyCData DeviceConnectedCallback CNull)
                     (PyCData DeviceDisconnectedCallback CNull)
                     (PyCData TrackingStoppedCallback CNull) booted)))
  /\ exists e,
       run_client not_installed tt
         (fun _ =>
            __init__ (reporting (answering 0) (fun _ _ => -1)) ELApi_object
              (PyStr [0x50; 0x79])
              (PyCData SampleCallback (CFunPtr 1))
              (PyCData ConnectionClosedCallback CNull)
              (PyCData DeviceConnectedCallback CNull)
              (PyCData DeviceDisconnectedCallback CNull)
              (PyCData TrackingStoppedCallback CNull))
       = (Raise e, None).
Proof.
  pose proof (fun env =>
    proj2 (proj2 (init_status_discarded unit (answering 0) (fun _ _ => -1)
                    ELApi_object PyNone PyNone PyNone PyNone PyNone PyNone
                    booted env tt))
      [0x50; 0x79] (CFunPtr 1) CNull CNull CNull CNull eq_refl) as H.
  split; [|split].
  - destruct (H installed) as [(xs & Hfst & _) _]. exact Hfst.
  - reflexivity.
  - destruct (H not_installed) as [_ [(e & _ & Hrun)|(m & w' & Himp & _)]].
    + exists e. exact Hrun.
    + discriminate Himp.
Defined.

(** * Further properties of the adapter *)

(** ** C integers *)

Lemma wrap_signed_periodic (z k : Z) :
  wrap_signed 32 (z + k * 2 ^ 32) = wrap_signed 32 z.
Proof. unfold wrap_signed. now rewrite Z.mod_add by lia. Qed.

Lemma wrap_signed_in_range (z : Z) :
  - 2 ^ 31 <= z < 2 ^ 31 -> wrap_signed 32 z = z.
Proof.
  intros Hz. unfold wrap_signed.
  change (2 ^ (32 - 1)) with (2 ^ 31).
  destruct (Z.ltb_spec (z mod 2 ^ 32) (2 ^ 31)) as [Hlt|Hge].
  - destruct (Z_lt_le_dec z 0) as [Hneg|Hpos].
    + rewrite <- (Z.mod_add z 1 (2 ^ 32)) in Hlt by lia.
      rewrite Z.mod_small in Hlt; lia.
    + apply Z.mod_small. lia.
  - destruct (Z_lt_le_dec z 0) as [Hneg|Hpos].
    + rewrite <- (Z.mod_add z 1 (2 ^ 32)) by lia.
      rewrite Z.mod_small; lia.
    + rewrite Z.mod_small in Hge; lia.
Qed.

(** ** Type descriptors *)

Lemma ctype_eqb_sound : forall a b : ctype, ctype_eqb a b = true -> a = b.
Proof.
  fix IH 1. intros a b. destruct a; destruct b; cbn; try discriminate;
    try reflexivity.
  - intros H. f_equal. now apply IH.
  - destruct s, s0; cbn; (reflexivity || discriminate).
  - intros H. apply andb_prop in H as [Hres Hargs].
    assert (res = res0) as ->.
    { destruct res as [t|], res0 as [u|]; try discriminate Hres;
        [f_equal; now apply IH | reflexivity]. }
    f_equal. clear Hres. revert args0 Hargs.
    induction args as [|x l IHl]; intros [|y m] Hargs;
      try discriminate Hargs; [reflexivity|].
    apply andb_prop in Hargs as [Hx Hl].
    f_equal; [now apply IH | now apply IHl].
Qed.

Lemma from_param_CFUNCTYPE (res : option ctype) (args : list ctype)
    (cb : pyobj) (v : cval) :
  from_param (CFUNCTYPE res args) cb = Some v
  <-> cb = PyCData (CFUNCTYPE res args) v.
Proof.
  split.
  - destruct cb; cbn; try discriminate.
    destruct (ctype_eqb t (CFUNCTYPE res args)) eqn:Ht; [|discriminate].
    apply ctype_eqb_sound in Ht. now intros [= ->]; subst.
  - intros ->. cbn -[ctype_eqb].
    assert (forall t, ctype_eqb t t = true) as Hrefl.
    { fix IH 1. intros [ | | | | | | t | s | r l]; cbn; try reflexivity.
      - apply IH.
      - now destruct s.
      - apply andb_true_intro. split.
        + destruct r; [apply IH | reflexivity].
        + induction l as [|x l IHl]; [reflexivity|].
          apply andb_true_intro. split; [apply IH | exact IHl]. }
    now rewrite Hrefl.
Qed.

Section Methods.

Variable N : Type.
Variable native : Entry -> list cval -> N -> Z * N.

(** ** Calls into the library *)

(** X1: [disconnect] returns [None] and raises nothing in every world, makes
    exactly one call [elDisconnect()], and leaves [elDisconnect] declared
    without parameters and without result, whatever it was declared as
    before (a [c_bool] result after [isConnected] among them). *)
Theorem disconnect_fire_and_forget (self : ELApi) (w : World N) :
  fst (disconnect native self w) = Return PyNone
  /\ calls (snd (disconnect native self w)) = calls w ++ [(elDisconnect, [])]
  /\ server (snd (disconnect native self w))
     = snd (native elDisconnect [] (server w))
  /\ c_lib (snd (disconnect native self w)) elDisconnect
     = {| argtypes := Some []; restype := None |}
  /\ fst (disconnect native self (snd (isConnected native self w)))
     = Return PyNone.
Proof.
  assert (forall w', fst (disconnect native self w') = Return PyNone) as Hret.
  { intros w'. unfold disconnect, bind, set_argtypes, set_restype, call, ret.
    cbn. now destruct (native elDisconnect [] (server w')). }
  split; [apply Hret|]. repeat split; try apply Hret.
  all: unfold disconnect, bind, set_argtypes, set_restype, call, ret; cbn;
    now destruct (native elDisconnect [] (server w)).
Qed.

(** X2: [connect], and [requestTracking] and [calibrate] with an integer
    mode index, make exactly one call into the library and keep the state
    the library is left in, whether they then return a result or raise
    [ValueError]: the exception is raised after the native call. *)
Theorem blocking_calls_reach_the_library (self : ELApi) (modeInd : Z)
    (w : World N) :
  (calls (snd (connect native self w)) = calls w ++ [(elConnect, [])]
   /\ server (snd (connect native self w))
      = snd (native elConnect [] (server w)))
  /\
  (calls (snd (requestTracking native self (PyInt modeInd) w))
   = calls w ++ [(elRequestTracking, [CInt (wrap_signed 32 modeInd)])]
   /\ server (snd (requestTracking native self (PyInt modeInd) w))
      = snd (native elRequestTracking [CInt (wrap_signed 32 modeInd)]
               (server w)))
  /\
  (calls (snd (calibrate native self (PyInt modeInd) w))
   = calls w ++ [(elCalibrate, [CInt (wrap_signed 32 modeInd)])]
   /\ server (snd (calibrate native self (PyInt modeInd) w))
      = snd (native elCalibrate [CInt (wrap_signed 32 modeInd)] (server w))).
Proof.
  unfold connect, requestTracking, calibrate, bind, set_argtypes,
    set_restype, call, lift.
  cbn.
  destruct (native elConnect [] (server w)).
  destruct (native elRequestTracking _ (server w)).
  destruct (native elCalibrate _ (server w)).
  cbn. repeat split.
Qed.

(** X3: a mode index that is neither an [int] (or [bool]) nor a [c_int]
    instance, such as [None], a [str] or a [bytes], is refused when the
    argument is converted: [requestTracking] and [calibrate] raise
    [ArgumentError] for argument 1 and the library is not called. *)
Theorem mode_index_must_be_an_integer (self : ELApi) (modeInd : pyobj)
    (w : World N) :
  as_int modeInd = None ->
  (forall v, modeInd <> PyCData c_int v) ->
  fst (requestTracking native self modeInd w) = Raise (ArgumentError 1)
  /\ calls (snd (requestTracking native self modeInd w)) = calls w
  /\ server (snd (requestTracking native self modeInd w)) = server w
  /\ fst (calibrate native self modeInd w) = Raise (ArgumentError 1)
  /\ calls (snd (calibrate native self modeInd w)) = calls w
  /\ server (snd (calibrate native self modeInd w)) = server w.
Proof.
  intros Hint Hinst.
  assert (from_param c_int modeInd = None) as Hconv.
  { destruct modeInd; try discriminate Hint; try reflexivity.
    cbn. destruct (ctype_eqb t c_int) eqn:Ht; [|reflexivity].
    apply ctype_eqb_sound in Ht. subst t. now destruct (Hinst v). }
  unfold requestTracking, calibrate, bind, set_argtypes, set_restype, call,
    lift.
  cbn -[from_param]. rewrite Hconv. cbn. auto 10.
Qed.

(** X4: the mode index reaches the library as a C [int]: indices that
    differ by a multiple of 2^32 are the same call, [True] and [False] are
    1 and 0, and an index of the [int] range is passed unchanged. *)
Theorem mode_index_is_a_C_int (self : ELApi) (i k : Z) (b : bool)
    (w : World N) :
  requestTracking native self (PyInt (i + k * 2 ^ 32)) w
  = requestTracking native self (PyInt i) w
  /\ calibrate native self (PyInt (i + k * 2 ^ 32)) w
     = calibrate native self (PyInt i) w
  /\ requestTracking native self (PyBool b) w
     = requestTracking native self (PyInt (Z.b2z b)) w
  /\ calibrate native self (PyBool b) w
     = calibrate native self (PyInt (Z.b2z b)) w
  /\ (- 2 ^ 31 <= i < 2 ^ 31 ->
      calls (snd (requestTracking native self (PyInt i) w))
      = calls w ++ [(elRequestTracking, [CInt i])]
      /\ calls (snd (calibrate native self (PyInt i) w))
         = calls w ++ [(elCalibrate, [CInt i])]).
Proof.
  unfold requestTracking, calibrate, bind, set_argtypes, set_restype, call,
    lift.
  cbn. rewrite wrap_signed_periodic.
  repeat split.
  - rewrite (wrap_signed_in_range i) by assumption.
    now destruct (native elRequestTracking _ (server w)).
  - rewrite (wrap_signed_in_range i) by assumption.
    now destruct (native elCalibrate _ (server w)).
Qed.

(** ** Function objects *)

(** X5: every method assigns [argtypes] and [restype] of one function
    object, the same values at every call, and touches no other:
    [connect], [disconnect], [requestTracking], [unrequestTracking] and
    [calibrate] configure the function they call, the constructor
    configures [elInitApi] once [clientName] is encoded, [isConnected]
    configures [elDisconnect], and the destructor configures nothing. *)
Theorem methods_configure_one_function (self : ELApi)
    (clientName cb1 cb2 cb3 cb4 cb5 modeInd : pyobj) (w : World N)
    (f : Entry) :
  c_lib (snd (connect native self w)) f
  = (if Entry_eqb f elConnect
     then {| argtypes := Some []; restype := Some c_int |}
     else c_lib w f)
  /\ c_lib (snd (disconnect native self w)) f
     = (if Entry_eqb f elDisconnect
        then {| argtypes := Some []; restype := None |}
        else c_lib w f)
  /\ c_lib (snd (isConnected native self w)) f
     = (if Entry_eqb f elDisconnect
        then {| argtypes := Some []; restype := Some c_bool |}
        else c_lib w f)
  /\ c_lib (snd (requestTracking native self modeInd w)) f
     = (if Entry_eqb f elRequestTracking
        then {| argtypes := Some [c_int]; restype := Some c_int |}
        else c_lib w f)
  /\ c_lib (snd (unrequestTracking native self w)) f
     = (if Entry_eqb f elUnrequestTracking
        then {| argtypes := Some []; restype := None |}
        else c_lib w f)
  /\ c_lib (snd (calibrate native self modeInd w)) f
     = (if Entry_eqb f elCalibrate
        then {| argtypes := Some [c_int]; restype := Some c_int |}
        else c_lib w f)
  /\ c_lib (snd (__init__ native self clientName cb1 cb2 cb3 cb4 cb5 w)) f
     = (if Entry_eqb f elInitApi
        then match encode_utf8 clientName with
             | Return _ =>
                 {| argtypes :=
                      Some [c_char_p; SampleCallback;
                            ConnectionClosedCallback;
                            DeviceConnectedCallback;
                            DeviceDisconnectedCallback;
                            TrackingStoppedCallback];
                    restype := Some c_int |}
             | Raise _ => c_lib w f
             end
        else c_lib w f)
  /\ c_lib (snd (__del__ native self w)) f = c_lib w f.
Proof.
  repeat split.
  - run_method. run_call; unfold update; now destruct f.
  - run_method. run_call; unfold update; now destruct f.
  - run_method. run_call; unfold update; now destruct f.
  - run_method. run_call; unfold update; now destruct f.
  - run_method. run_call; unfold update; now destruct f.
  - run_method. run_call; unfold update; now destruct f.
  - run_method. destruct (encode_utf8 clientName); cbn -[convert_args].
    + run_call; unfold update; now destruct f.
    + now destruct f.
  - run_method. run_call; reflexivity.
Qed.

(** ** Sessions *)

Lemma after_configured (c : Invocation) (w : World N) :
  configured w -> configured (after native c w).
Proof.
  intros Hw f. specialize (Hw f).
  destruct c; cbn [after]; run_method;
    try (destruct (encode_utf8 clientName); cbn -[convert_args]);
    try run_call; unfold update; destruct f; cbn; auto.
Qed.

Lemma after_all_configured (cs : list Invocation) (w : World N) :
  configured w -> configured (after_all native cs w).
Proof.
  revert w. induction cs as [|c cs IH]; intros w Hw; [exact Hw|].
  cbn. apply IH, after_configured, Hw.
Qed.

Lemma loaded_configured (m : Module) (boot : N) : configured (loaded m boot).
Proof. intros f. destruct f; cbn; auto. Qed.

(** X6: whatever the client invokes after the import, in whatever order and
    whether the invocations return or raise, every function object keeps
    one of the signatures the module assigns to it; [elIsConnected] and
    [elDestroyApi] are never configured. *)
Theorem signatures_stay_configured (m : Module) (boot : N)
    (cs : list Invocation) :
  (forall f,
     In (c_lib (after_all native cs (loaded m boot)) f) (signatures f))
  /\ c_lib (after_all native cs (loaded m boot)) elIsConnected
     = fresh_FuncPtr
  /\ c_lib (after_all native cs (loaded m boot)) elDestroyApi
     = fresh_FuncPtr.
Proof.
  pose proof (after_all_configured cs _ (loaded_configured m boot)) as H.
  split; [exact H|].
  split; [destruct (H elIsConnected) as [<-|[]]
         | destruct (H elDestroyApi) as [<-|[]]]; reflexivity.
Qed.

(** X7: at any point of a session [isConnected] raises nothing, calls
    [elIsConnected()] once, and returns the result register read as a
    32-bit [int], never a [bool]: [elIsConnected] is called as ctypes
    created it. *)
Theorem isConnected_returns_an_int (m : Module) (boot : N)
    (cs : list Invocation) (self : ELApi) :
  let w := after_all native cs (loaded m boot) in
  fst (isConnected native self w)
  = Return (PyInt (wrap_signed 32 (fst (native elIsConnected [] (server w)))))
  /\ calls (snd (isConnected native self w))
     = calls w ++ [(elIsConnected, [])]
  /\ server (snd (isConnected native self w))
     = snd (native elIsConnected [] (server w)).
Proof.
  intros w.
  destruct (after_all_configured cs _ (loaded_configured m boot)
              elIsConnected) as [Hsig|[]].
  fold w in Hsig.
  unfold isConnected, bind, set_argtypes, set_restype, call.
  cbn. rewrite <- Hsig. cbn.
  destruct (native elIsConnected [] (server w)). cbn. auto.
Qed.

(** X8: at any point of a session, a point after an earlier run of the
    destructor among them, the destructor raises nothing, calls
    [elDestroyApi()] once and ignores what it answers. *)
Theorem del_calls_elDestroyApi (m : Module) (boot : N)
    (cs : list Invocation) (self : ELApi) :
  let w := after_all native cs (loaded m boot) in
  fst (__del__ native self w) = Return tt
  /\ calls (snd (__del__ native self w)) = calls w ++ [(elDestroyApi, [])]
  /\ server (snd (__del__ native self w))
     = snd (native elDestroyApi [] (server w)).
Proof.
  intros w.
  destruct (after_all_configured cs _ (loaded_configured m boot)
              elDestroyApi) as [Hsig|[]].
  fold w in Hsig.
  unfold __del__, bind, call, ret.
  rewrite <- Hsig. cbn.
  destruct (native elDestroyApi [] (server w)). cbn. auto.
Qed.

Lemma after_calls (c : Invocation) (w : World N) :
  calls (after native c w) = calls w
  \/ exists x, calls (after native c w) = calls w ++ [x].
Proof.
  destruct c; cbn [after]; run_method;
    try (destruct (encode_utf8 clientName); cbn -[convert_args]; auto);
    run_call; eauto.
Qed.

(** X9: an invocation makes at most one call into the library and never
    rewrites the calls made before: after a sequence of invocations the
    calls are the earlier ones followed by at most one per invocation. *)
Theorem one_call_per_invocation (cs : list Invocation) (w : World N) :
  exists made,
    calls (after_all native cs w) = calls w ++ made
    /\ (List.length made <= List.length cs)%nat.
Proof.
  revert w. induction cs as [|c cs IH]; intros w.
  - exists []. cbn. split; [now rewrite app_nil_r | lia].
  - cbn [after_all fold_left].
    destruct (IH (after native c w)) as (made & Hcalls & Hlen).
    fold (after_all native cs (after native c w)).
    destruct (after_calls c w) as [Hsame|[x Hone]].
    + exists made. rewrite Hcalls, Hsame. cbn. split; [reflexivity | lia].
    + exists (x :: made). rewrite Hcalls, Hone, <- app_assoc. cbn.
      split; [reflexivity | lia].
Qed.

End Methods.

(** ** The client name *)

Lemma byte_of_Z_value (z : Z) :
  Z.of_N (Byte.to_N (byte_of_Z z)) = z mod 256.
Proof.
  unfold byte_of_Z.
  assert (0 <= z mod 256 < 256) as Hm by (apply Z.mod_pos_bound; lia).
  pose proof (Byte.to_of_N_option_map (Z.to_N (z mod 256))) as Hopt.
  destruct (N.leb_spec (Z.to_N (z mod 256)) 255) as [_|Hgt]; [|lia].
  destruct (Byte.of_N (Z.to_N (z mod 256))) as [b|]; [|discriminate Hopt].
  injection Hopt as ->. lia.
Qed.

Lemma byte_of_Z_x00 (z : Z) : byte_of_Z z = x00 <-> z mod 256 = 0.
Proof.
  rewrite <- byte_of_Z_value. split.
  - intros ->. reflexivity.
  - intros Hv.
    pose proof (Byte.of_to_N (byte_of_Z z)) as Hb.
    replace (Byte.to_N (byte_of_Z z)) with 0%N in Hb by lia.
    cbn in Hb. congruence.
Qed.

Lemma high_bit_not_x00 (z : Z) : Z.testbit z 7 = true -> byte_of_Z z <> x00.
Proof.
  intros Hbit Hz. apply byte_of_Z_x00 in Hz.
  assert (Z.testbit (z mod 2 ^ 8) 7 = Z.testbit z 7) as Hlow
    by (apply Z.mod_pow2_bits_low; lia).
  change (2 ^ 8) with 256 in Hlow. rewrite Hz, Hbit in Hlow.
  discriminate Hlow.
Qed.

Lemma utf8_continuation_not_x00 (z : Z) : utf8_continuation z <> x00.
Proof.
  apply high_bit_not_x00. now rewrite Z.lor_spec.
Qed.

Lemma utf8_of_codepoint_x00 (cp : Z) :
  0 <= cp -> In x00 (utf8_of_codepoint cp) <-> cp = 0.
Proof.
  intros Hcp. unfold utf8_of_codepoint.
  destruct (Z.ltb_spec cp 0x80) as [Hlt|Hge].
  - cbn [In]. rewrite byte_of_Z_x00.
    rewrite Z.mod_small by lia. tauto.
  - split; [|lia]. intros Hin. exfalso.
    repeat match type of Hin with
           | context [if ?c then _ else _] => destruct c
           end;
      cbn [In] in Hin;
      repeat match type of Hin with
             | _ \/ _ => destruct Hin as [Hin|Hin]
             end;
      try contradiction;
      revert Hin;
      try apply utf8_continuation_not_x00;
      apply high_bit_not_x00; now rewrite Z.lor_spec.
Qed.

(** X14: [elInitApi] receives the client name as a NUL-terminated string;
    the UTF-8 encoding of a [str] contains a zero byte, at which the
    library stops reading, exactly when the [str] contains U+0000. *)
Theorem utf8_encode_x00 (cps : list Z) (bs : list byte) :
  Forall (fun cp => 0 <= cp) cps ->
  utf8_encode cps = Return bs ->
  (In x00 bs <-> In 0 cps).
Proof.
  intros Hpos. revert bs.
  induction Hpos as [|cp cps Hcp _ IH]; intros bs; cbn.
  - intros [= <-]. reflexivity.
  - destruct (is_surrogate cp); [discriminate|].
    destruct (utf8_encode cps) as [bs'|]; [|discriminate].
    intros [= <-]. rewrite in_app_iff, (IH bs' eq_refl).
    rewrite (utf8_of_codepoint_x00 cp Hcp). intuition congruence.
Qed.

(** X15: an ASCII [str] can always be encoded, to one byte per character
    with the character's code. *)
Theorem utf8_encode_ascii (cps : list Z) :
  Forall (fun cp => 0 <= cp < 0x80) cps ->
  exists bs,
    utf8_encode cps = Return bs
    /\ map (fun b => Z.of_N (Byte.to_N b)) bs = cps.
Proof.
  induction 1 as [|cp cps Hcp _ (bs & Hbs & Hval)]; cbn.
  - exists []. auto.
  - unfold is_surrogate.
    destruct (Z.leb_spec 0xD800 cp) as [Hs|_]; [lia|]. cbn.
    rewrite Hbs. unfold utf8_of_codepoint.
    destruct (Z.ltb_spec cp 0x80) as [_|Hge]; [|lia].
    eexists. split; [reflexivity|]. cbn.
    rewrite byte_of_Z_value, Z.mod_small, Hval by lia. reflexivity.
Qed.

(** ** The constructor's arguments *)

Section Constructor.

Variable N : Type.
Variable native : Entry -> list cval -> N -> Z * N.

Lemma init_arguments (x : cval) (cb1 cb2 cb3 cb4 cb5 : pyobj)
    (xs : list cval) :
  convert_args
    (Some [c_char_p; SampleCallback; ConnectionClosedCallback;
           DeviceConnectedCallback; DeviceDisconnectedCallback;
           TrackingStoppedCallback])
    [PyCData c_char_p x; cb1; cb2; cb3; cb4; cb5] = Return xs
  <-> exists v1 v2 v3 v4 v5,
        cb1 = PyCData SampleCallback v1
        /\ cb2 = PyCData ConnectionClosedCallback v2
        /\ cb3 = PyCData DeviceConnectedCallback v3
        /\ cb4 = PyCData DeviceDisconnectedCallback v4
        /\ cb5 = PyCData TrackingStoppedCallback v5
        /\ xs = [x; v1; v2; v3; v4; v5].
Proof.
  unfold convert_args. cbn -[from_param].
  change (from_param c_char_p (PyCData c_char_p x)) with (Some x).
  unfold SampleCallback, ConnectionClosedCallback, DeviceConnectedCallback,
    DeviceDisconnectedCallback, TrackingStoppedCallback.
  split.
  - destruct (from_param _ cb1) as [v1|] eqn:H1; [|discriminate].
    destruct (from_param _ cb2) as [v2|] eqn:H2; [|discriminate].
    destruct (from_param _ cb3) as [v3|] eqn:H3; [|discriminate].
    destruct (from_param _ cb4) as [v4|] eqn:H4; [|discriminate].
    destruct (from_param _ cb5) as [v5|] eqn:H5; [|discriminate].
    intros [= <-].
    apply from_param_CFUNCTYPE in H1, H2, H3, H4, H5.
    exists v1, v2, v3, v4, v5. auto 10.
  - intros (v1 & v2 & v3 & v4 & v5 & -> & -> & -> & -> & -> & ->).
    reflexivity.
Qed.

(** X10: the constructor returns normally exactly when [clientName] is a
    [str] that UTF-8 can encode and each of the five callbacks is an
    instance of the callback type of its parameter; [elInitApi] then
    receives the encoded name and the five function pointers, in the order
    of the parameters. *)
Theorem init_returns_iff (self : ELApi)
    (clientName cb1 cb2 cb3 cb4 cb5 : pyobj) (w : World N) :
  (fst (__init__ native self clientName cb1 cb2 cb3 cb4 cb5 w) = Return tt
   <-> exists cps v1 v2 v3 v4 v5,
         clientName = PyStr cps /\ encodable cps = true
         /\ cb1 = PyCData SampleCallback v1
         /\ cb2 = PyCData ConnectionClosedCallback v2
         /\ cb3 = PyCData DeviceConnectedCallback v3
         /\ cb4 = PyCData DeviceDisconnectedCallback v4
         /\ cb5 = PyCData TrackingStoppedCallback v5)
  /\ (forall cps bs v1 v2 v3 v4 v5,
        utf8_encode cps = Return bs ->
        calls (snd (__init__ native self (PyStr cps)
                      (PyCData SampleCallback v1)
                      (PyCData ConnectionClosedCallback v2)
                      (PyCData DeviceConnectedCallback v3)
                      (PyCData DeviceDisconnectedCallback v4)
                      (PyCData TrackingStoppedCallback v5) w))
        = calls w ++ [(elInitApi, [CChars bs; v1; v2; v3; v4; v5])]).
Proof.
  split; [split|].
  - run_method.
    destruct clientName; cbn -[convert_args]; try discriminate.
    destruct (utf8_encode cps) as [bs|] eqn:Hbs;
      cbn -[convert_args]; [|discriminate].
    destruct (convert_args _ _) as [xs|] eqn:Hxs; cbn; [|discriminate].
    intros _. apply init_arguments in Hxs
      as (v1 & v2 & v3 & v4 & v5 & H1 & H2 & H3 & H4 & H5 & _).
    exists cps, v1, v2, v3, v4, v5. repeat split; try assumption.
    apply utf8_encode_encodable. eauto.
  - intros (cps & v1 & v2 & v3 & v4 & v5 & -> & Hcps & -> & -> & -> & -> & ->).
    apply utf8_encode_encodable in Hcps as [bs Hbs].
    run_method. rewrite Hbs. cbn.
    now destruct (native elInitApi _ (server w)).
  - intros cps bs v1 v2 v3 v4 v5 Hbs.
    run_method. rewrite Hbs. cbn.
    now destruct (native elInitApi _ (server w)).
Qed.

(** X11: Python's [None] is not accepted for a callback: with a client name
    that can be encoded, [None] in the place of a callback raises
    [ArgumentError] for that argument (2 to 6, the name being argument 1)
    and [elInitApi] is not called. *)
Theorem init_refuses_None_callback (self : ELApi) (cps : list Z)
    (cb1 cb2 cb3 cb4 cb5 : pyobj) (v1 v2 v3 v4 : cval) (w : World N) :
  encodable cps = true ->
  let s := PyCData SampleCallback v1 in
  let c := PyCData ConnectionClosedCallback v2 in
  let d := PyCData DeviceConnectedCallback v3 in
  let dd := PyCData DeviceDisconnectedCallback v4 in
  (fst (__init__ native self (PyStr cps) PyNone cb2 cb3 cb4 cb5 w)
   = Raise (ArgumentError 2)
   /\ calls (snd (__init__ native self (PyStr cps) PyNone cb2 cb3 cb4 cb5 w))
      = calls w)
  /\ (fst (__init__ native self (PyStr cps) s PyNone cb3 cb4 cb5 w)
      = Raise (ArgumentError 3)
      /\ calls (snd (__init__ native self (PyStr cps) s PyNone cb3 cb4 cb5 w))
         = calls w)
  /\ (fst (__init__ native self (PyStr cps) s c PyNone cb4 cb5 w)
      = Raise (ArgumentError 4)
      /\ calls (snd (__init__ native self (PyStr cps) s c PyNone cb4 cb5 w))
         = calls w)
  /\ (fst (__init__ native self (PyStr cps) s c d PyNone cb5 w)
      = Raise (ArgumentError 5)
      /\ calls (snd (__init__ native self (PyStr cps) s c d PyNone cb5 w))
         = calls w)
  /\ (fst (__init__ native self (PyStr cps) s c d dd PyNone w)
      = Raise (ArgumentError 6)
      /\ calls (snd (__init__ native self (PyStr cps) s c d dd PyNone w))
         = calls w).
Proof.
  intros Hcps s c d dd.
  apply utf8_encode_encodable in Hcps as [bs Hbs].
  unfold __init__, bind, set_argtypes, set_restype, call, lift, ret.
  cbn. rewrite Hbs. cbn. auto 10.
Qed.

End Constructor.

(** ** Import *)

(** X12: the import succeeds exactly when the library file is there, the
    kernel32 library and the name [wintypes] are available, [LoadLibraryExW]
    gives a handle that is not null for that file with flag 8, and the
    library exports [ELInvalidValue]; the module then holds that handle and
    that value. *)
Theorem import_succeeds_iff (env : Env) (m : Module) :
  import_ELApi env = Return m
  <-> isfile env (libnameGlobal env) = true
      /\ WinDLL_kernel32 env = true
      /\ wintypes_bound env = true
      /\ LoadLibraryExW env (libnameGlobal env) 8 = c_libH m
      /\ c_libH m <> 0
      /\ in_dll env (c_libH m) "ELInvalidValue" = Some (ELInvalidValue m).
Proof.
  unfold import_ELApi, load_library, check_bool.
  destruct (isfile env (libnameGlobal env)); cbn;
    [|split; [discriminate | intros [[=] _]]].
  destruct (WinDLL_kernel32 env);
    [|split; [discriminate | intros (_ & [=] & _)]].
  destruct (wintypes_bound env);
    [|split; [discriminate | intros (_ & _ & [=] & _)]].
  set (raw := LoadLibraryExW env (libnameGlobal env) 8).
  destruct (raw =? 0) eqn:Hraw; cbn; rewrite ?Hraw; cbn.
  - apply Z.eqb_eq in Hraw. split; [discriminate|].
    intros (_ & _ & _ & Hm & Hnz & _). congruence.
  - split.
    + destruct (in_dll env raw "ELInvalidValue") as [bits|] eqn:Hsym;
        [|discriminate].
      intros [= Hm]. rewrite <- Hm. cbn. apply Z.eqb_neq in Hraw. auto 10.
    + intros (_ & _ & _ & Hm & _ & Hbits). rewrite Hm, Hbits.
      now destruct m.
Qed.

(** ** Enumerations and native codes *)

(** X13: in each of the three enumerations the value of a member looks the
    member up again, a lookup that succeeds was given the value of the
    member it returns, and [True] and [False] are looked up as 1 and 0. *)
Theorem enum_round_trip (v : pyobj) (b : bool) :
  (forall m, ReturnConnect.call (PyInt (ReturnConnect.value m)) = Return m)
  /\ (forall m, ReturnStart.call (PyInt (ReturnStart.value m)) = Return m)
  /\ (forall m,
        ReturnCalibrate.call (PyInt (ReturnCalibrate.value m)) = Return m)
  /\ (forall m, ReturnConnect.call v = Return m ->
                as_int v = Some (ReturnConnect.value m))
  /\ (forall m, ReturnStart.call v = Return m ->
                as_int v = Some (ReturnStart.value m))
  /\ (forall m, ReturnCalibrate.call v = Return m ->
                as_int v = Some (ReturnCalibrate.value m))
  /\ ReturnConnect.call (PyBool b) = ReturnConnect.call (PyInt (Z.b2z b))
  /\ ReturnStart.call (PyBool b) = ReturnStart.call (PyInt (Z.b2z b))
  /\ ReturnCalibrate.call (PyBool b)
     = ReturnCalibrate.call (PyInt (Z.b2z b)).
Proof.
  repeat split.
  - intros m. now apply ReturnConnect_call_iff.
  - intros m. now apply ReturnStart_call_iff.
  - intros m. now apply ReturnCalibrate_call_iff.
  - intros m H. now apply enum_call_sound in H.
  - intros m H. now apply enum_call_sound in H.
  - intros m H. now apply enum_call_sound in H.
  - now destruct b.
  - now destruct b.
  - now destruct b.
Qed.

(** ** Concrete runs *)

Lemma mode_index_must_be_an_integer_witness :
  fst (requestTracking (answering 0) ELApi_object PyNone booted)
  = Raise (ArgumentError 1)
  /\ calls (snd (requestTracking (answering 0) ELApi_object PyNone booted))
     = calls booted
  /\ server (snd (requestTracking (answering 0) ELApi_object PyNone booted))
     = server booted
  /\ fst (calibrate (answering 0) ELApi_object PyNone booted)
     = Raise (ArgumentError 1)
  /\ calls (snd (calibrate (answering 0) ELApi_object PyNone booted))
     = calls booted
  /\ server (snd (calibrate (answering 0) ELApi_object PyNone booted))
     = server booted.
Proof.
  apply (mode_index_must_be_an_integer unit (answering 0) ELApi_object
           PyNone booted).
  - reflexivity.
  - intros v. discriminate.
Defined.

Lemma mode_index_is_a_C_int_witness :
  calls (snd (requestTracking (answering 0) ELApi_object (PyInt (-1)) booted))
  = calls booted ++ [(elRequestTracking, [CInt (-1)])]
  /\ calls (snd (calibrate (answering 0) ELApi_object (PyInt (-1)) booted))
     = calls booted ++ [(elCalibrate, [CInt (-1)])].
Proof.
  apply (proj2 (proj2 (proj2 (proj2
    (mode_index_is_a_C_int unit (answering 0) ELApi_object (-1) 0 true
       booted))))).
  lia.
Defined.

Lemma utf8_encode_x00_witness :
  In x00 [x41; x00; xc3; xa9] <-> In 0 [0x41; 0; 0xE9].
Proof.
  apply (utf8_encode_x00 [0x41; 0; 0xE9] [x41; x00; xc3; xa9]).
  - repeat constructor; lia.
  - reflexivity.
Defined.

Lemma utf8_encode_ascii_witness :
  exists bs,
    utf8_encode [0x50; 0x79] = Return bs
    /\ map (fun b => Z.of_N (Byte.to_N b)) bs = [0x50; 0x79].
Proof.
  apply (utf8_encode_ascii [0x50; 0x79]).
  repeat constructor; lia.
Defined.

Lemma init_returns_iff_witness :
  fst (__init__ (answering 1) ELApi_object (str "PyGaze")
         (PyCData SampleCallback (CFunPtr 1))
         (null_callback ConnectionClosedCallback)
         (null_callback DeviceConnectedCallback)
         (null_callback DeviceDisconnectedCallback)
         (null_callback TrackingStoppedCallback) booted) = Return tt
  /\ calls (snd (__init__ (answering 1) ELApi_object (PyStr [0x50; 0x79])
                   (PyCData SampleCallback (CFunPtr 1))
                   (PyCData ConnectionClosedCallback CNull)
                   (PyCData DeviceConnectedCallback CNull)
                   (PyCData DeviceDisconnectedCallback CNull)
                   (PyCData TrackingStoppedCallback CNull) booted))
     = calls booted
       ++ [(elInitApi,
            [CChars [x50; x79]; CFunPtr 1; CNull; CNull; CNull; CNull])].
Proof.
  split.
  - apply (proj1 (init_returns_iff unit (answering 1) ELApi_object
                    (str "PyGaze")
                    (PyCData SampleCallback (CFunPtr 1))
                    (null_callback ConnectionClosedCallback)
                    (null_callback DeviceConnectedCallback)
                    (null_callback DeviceDisconnectedCallback)
                    (null_callback TrackingStoppedCallback) booted)).
    exists [0x50; 0x79; 0x47; 0x61; 0x7A; 0x65],
      (CFunPtr 1), CNull, CNull, CNull, CNull.
    repeat split.
  - apply (proj2 (init_returns_iff unit (answering 1) ELApi_object PyNone
                    PyNone PyNone PyNone PyNone PyNone booted)).
    reflexivity.
Defined.

Lemma init_refuses_None_callback_witness :
  fst (__init__ (answering 0) ELApi_object (PyStr [0x50; 0x79]) PyNone
         PyNone PyNone PyNone PyNone booted) = Raise (ArgumentError 2)
  /\ calls (snd (__init__ (answering 0) ELApi_object (PyStr [0x50; 0x79])
                   PyNone PyNone PyNone PyNone PyNone booted))
     = calls booted.
Proof.
  apply (proj1 (init_refuses_None_callback unit (answering 0) ELApi_object
                  [0x50; 0x79] PyNone PyNone PyNone PyNone PyNone
                  CNull CNull CNull CNull booted eq_refl)).
Defined.

Lemma import_succeeds_iff_witness :
  import_ELApi installed
  = Return {| c_libH := 0x7FFA0000; ELInvalidValue := 0x7FF8000000000000 |}.
Proof.
  apply (proj2 (import_succeeds_iff installed
           {| c_libH := 0x7FFA0000; ELInvalidValue := 0x7FF8000000000000 |})).
  repeat split. discriminate.
Defined.

Lemma enum_round_trip_witness :
  as_int (PyBool true) = Some (ReturnStart.value ReturnStart.NOT_CONNECTED).
Proof.
  apply (proj1 (proj2 (proj2 (proj2 (proj2
    (enum_round_trip (PyBool true) true)))))).
  reflexivity.
Defined.
